(** * humanlog: a colored, column-aligned text handler for apex/log

    A shallow embedding of [humanlog.go] and of its two earlier revisions,
    the first of which used a fixed color palette.  Go's [int] and
    [time.Duration] are 64-bit integers, modelled as [Z] with the
    wrap-around written out; Go strings are byte strings, modelled as
    [string]. *)

From Stdlib Require Import ZArith Lia Bool List Ascii String DecimalString.
From Stdlib Require DecimalZ DecimalPos.
From Stdlib Require Import Sorting.Sorted Sorting.Permutation.
From Stdlib Require Import Floats.PrimFloat Numbers.Cyclic.Int63.Uint63.
From stdpp Require Import base gmap strings list.

Local Open Scope string_scope.
Local Open Scope Z_scope.

(** ** The pieces of the Go runtime and standard library the handler uses *)

Module Go.

(** Two's complement wrap-around of a 64-bit signed integer. *)
Definition wrap64 (z : Z) : Z := (z + 2 ^ 63) mod 2 ^ 64 - 2 ^ 63.

Definition int_add (a b : Z) : Z := wrap64 (a + b).
Definition int_sub (a b : Z) : Z := wrap64 (a - b).

(** [len(s)]: the number of bytes of a string. *)
Definition len (s : string) : Z := Z.of_nat (String.length s).

(** [strconv.Itoa] / the verb [%d]: decimal digits, with a sign for
    negative numbers. *)
Definition itoa (n : Z) : string := NilZero.string_of_int (Z.to_int n).

(** [fmt.Sprintf(format, n)] for a format whose only verb is one [%d]. *)
Fixpoint Sprintf_d (format : string) (n : Z) : string :=
  match format with
  | String "%" (String "d" rest) => itoa n +:+ rest
  | String c rest => String c (Sprintf_d rest n)
  | EmptyString => EmptyString
  end.

(** [float64(d)] for a 64-bit integer that a double holds exactly. *)
Definition float64 (d : Z) : float := PrimFloat.of_uint63 (Uint63.of_Z d).

(** [strings.Repeat(s, n)]; the handler asks for a positive count only. *)
Definition Repeat (s : string) (n : Z) : string :=
  Nat.iter (Z.to_nat n) (fun acc => s +:+ acc) EmptyString.

(** [s[n:]] and the concatenation of byte strings. *)
Fixpoint drop_nat (n : nat) (s : string) : string :=
  match n, s with
  | S n', String _ s' => drop_nat n' s'
  | _, _ => s
  end.

Definition drop_bytes (n : Z) (s : string) : string := drop_nat (Z.to_nat n) s.

Definition concat_bytes (l : list string) : string :=
  foldr String.append EmptyString l.

(** *** [error] and [io.Writer] *)

(** A Go [error] value; [None] is [nil]. *)
Definition error : Type := option string.

Definition ErrShortWrite : error := Some "short write".

(** What a call leaves behind: it returns, or it panics. *)
Inductive result : Type :=
| Return (err : error)
| Panic (msg : string).

(** [io.Writer]: [Write] consumes a byte string and answers with the number
    of bytes it took and an error; [W] is whatever state the sink keeps. *)
Class Writer (W : Type) : Type :=
  Write : W -> string -> W * Z * error.

(** *** [hash/crc32] *)

Definition IEEE : Z := 0xedb88320.

(** One byte of the reflected CRC-32, bit by bit. *)
Definition crc32_update (crc : Z) (b : ascii) : Z :=
  Nat.iter 8
    (fun c => if Z.testbit c 0 then Z.lxor (Z.shiftr c 1) IEEE
              else Z.shiftr c 1)
    (Z.lxor crc (Z.of_N (N_of_ascii b))).

Definition ChecksumIEEE (data : string) : Z :=
  Z.lxor (fold_left crc32_update (list_ascii_of_string data) 0xffffffff)
         0xffffffff.

(** *** [sort.Slice] and [strings.Compare] *)

(** [strings.Compare(a, b) == -1]: bytewise lexicographic order. *)
Definition string_lt (a b : string) : bool :=
  match String.compare a b with Lt => true | _ => false end.

Section Sort.
Context {A : Type} (less : A -> A -> bool).

Fixpoint insert_sorted (x : A) (l : list A) : list A :=
  match l with
  | [] => [x]
  | y :: l' => if less x y then x :: y :: l' else y :: insert_sorted x l'
  end.

(** [sort.Slice(l, less)].  The library sorts in place with a pattern
    defeating quicksort and promises no stability; the handler only sorts
    distinct names under a total order, where every sorting algorithm
    yields the same slice (see [Slice_unique]), so insertion sort stands
    for it. *)
Definition Slice (l : list A) : list A := foldr insert_sorted [] l.

End Sort.

(** [sort.Strings]. *)
Definition Strings (l : list string) : list string := Slice string_lt l.

(** *** [regexp]: expressions over bytes, matched by derivatives *)

Inductive regexp : Type :=
| Void
| Eps
| Byte (lo hi : ascii)
| Cat (r1 r2 : regexp)
| Alt (r1 r2 : regexp)
| Star (r : regexp).

Definition in_range (lo hi c : ascii) : bool :=
  (N_of_ascii lo <=? N_of_ascii c)%N && (N_of_ascii c <=? N_of_ascii hi)%N.

Fixpoint nullable (r : regexp) : bool :=
  match r with
  | Void => false
  | Eps => true
  | Byte _ _ => false
  | Cat r1 r2 => nullable r1 && nullable r2
  | Alt r1 r2 => nullable r1 || nullable r2
  | Star _ => true
  end.

Fixpoint deriv (c : ascii) (r : regexp) : regexp :=
  match r with
  | Void => Void
  | Eps => Void
  | Byte lo hi => if in_range lo hi c then Eps else Void
  | Cat r1 r2 =>
      if nullable r1 then Alt (Cat (deriv c r1) r2) (deriv c r2)
      else Cat (deriv c r1) r2
  | Alt r1 r2 => Alt (deriv c r1) (deriv c r2)
  | Star r1 => Cat (deriv c r1) (Star r1)
  end.

(** [re.MatchString(s)] for an expression anchored at both ends
    ([^...$] without the multi-line flag): the whole of [s] must match. *)
Fixpoint MatchString (r : regexp) (s : string) : bool :=
  match s with
  | EmptyString => nullable r
  | String c s' => MatchString (deriv c r) s'
  end.

(** The literal byte string [s]. *)
Fixpoint Lit (s : string) : regexp :=
  match s with
  | EmptyString => Eps
  | String c s' => Cat (Byte c c) (Lit s')
  end.

(** [r?] and [r+]. *)
Definition Opt (r : regexp) : regexp := Alt r Eps.
Definition Plus (r : regexp) : regexp := Cat r (Star r).

(** [r{lo,hi}]: [lo] copies of [r], then up to [hi - lo] more, each one
    optional together with those after it. *)
Fixpoint AtMost (n : nat) (r : regexp) : regexp :=
  match n with
  | O => Eps
  | S n' => Opt (Cat r (AtMost n' r))
  end.

Fixpoint Exactly (n : nat) (r : regexp) : regexp :=
  match n with
  | O => Eps
  | S n' => Cat r (Exactly n' r)
  end.

Definition Rep (r : regexp) (lo hi : nat) : regexp :=
  Cat (Exactly lo r) (AtMost (hi - lo) r).

(** The language of an expression. *)
Inductive Lang : regexp -> string -> Prop :=
| LEps : Lang Eps ""
| LByte lo hi c : in_range lo hi c = true -> Lang (Byte lo hi) (String c "")
| LCat r1 r2 s1 s2 : Lang r1 s1 -> Lang r2 s2 -> Lang (Cat r1 r2) (s1 +:+ s2)
| LAltL r1 r2 s : Lang r1 s -> Lang (Alt r1 r2) s
| LAltR r1 r2 s : Lang r2 s -> Lang (Alt r1 r2) s
| LStar0 r : Lang (Star r) ""
| LStarS r s1 s2 : Lang r s1 -> Lang (Star r) s2 -> Lang (Star r) (s1 +:+ s2).

End Go.

(** ** [time] constants, in nanoseconds *)

Module time.
Definition Nanosecond : Z := 1.
Definition Microsecond : Z := 1000 * Nanosecond.
Definition Millisecond : Z := 1000 * Microsecond.
Definition Second : Z := 1000 * Millisecond.
Definition Minute : Z := 60 * Second.
Definition Hour : Z := 60 * Minute.
End time.

(** ** [apex/log]: levels, fields and entries *)

Module log.

(** [log.Level].  The package also has [InvalidLevel], the failure value of
    its level parser; a logger never stamps an entry with it. *)
Inductive Level : Type :=
| DebugLevel | InfoLevel | WarnLevel | ErrorLevel | FatalLevel.

(** The dynamic type and value behind an [interface{}] field value.  Each
    predeclared numeric type has its constructor, [uintptr] included.
    [VNamed t v] is a value of a defined type [t] other than
    [time.Duration], represented as [v] is: [time.Month(3)] is
    [VNamed "time.Month" (VInt 3)].  [VOther] is a value of a type of any
    further kind (struct, map, func, ...). *)
Inductive value : Type :=
| VUint (n : Z) | VUint8 (n : Z) | VUint16 (n : Z) | VUint32 (n : Z)
| VUint64 (n : Z)
| VInt (n : Z) | VInt8 (n : Z) | VInt16 (n : Z) | VInt32 (n : Z)
| VInt64 (n : Z)
| VFloat32 (x : float) | VFloat64 (x : float)
| VComplex64 (re im : float) | VComplex128 (re im : float)
| VDuration (d : Z)
| VDurationPtr (p : option Z)
| VString (s : string)
| VBytes (b : string)
| VBool (b : bool)
| VNil
| VUintptr (n : Z)
| VNamed (type_name : string) (underlying : value)
| VOther (type_name : string) (repr : string).

(** [log.Fields] is a [map[string]interface{}]. *)
Record Entry : Type := mkEntry {
  Level_ : Level;
  Timestamp_ : Z;
  Message : string;
  Fields : gmap string value
}.

(** [Fields.Get]: the map lookup, [nil] for a missing name. *)
Definition Get (f : gmap string value) (name : string) : value :=
  default VNil (f !! name).

(** [Fields.Names]: the keys, sorted. *)
Definition Names (f : gmap string value) : list string :=
  Go.Strings (map fst (map_to_list f)).

End log.

Import log.

(** ** [fatih/color] *)

Module color.

(** A color is the list of its SGR parameters. *)
Definition Color : Type := list Z.

Definition FgRed : Z := 31.
Definition FgGreen : Z := 32.
Definition FgYellow : Z := 33.
Definition FgBlue : Z := 34.
Definition FgMagenta : Z := 35.
Definition FgCyan : Z := 36.
Definition FgWhite : Z := 37.
Definition FgHiRed : Z := 91.
Definition FgHiGreen : Z := 92.
Definition FgHiYellow : Z := 93.
Definition FgHiBlue : Z := 94.
Definition FgHiMagenta : Z := 95.
Definition FgHiCyan : Z := 96.
Definition BgRed : Z := 41.

Definition New (params : list Z) : Color := params.

(** [color.RGB]: a 24-bit foreground color. *)
Definition RGB (r g b : Z) : Color := New [38; 2; r; g; b].

End color.

(** ** What the handler takes from its libraries as given *)

Class Externals : Type := {
  (** [runewidth.StringWidth]: terminal columns of a string. *)
  StringWidth : string -> Z;
  (** [fmt.Sprintf("%v", v)]. *)
  Sprint_v : value -> string;
  (** [fmt.Sprintf("%*v", width, v)]. *)
  Sprintf_width_v : Z -> value -> string;
  (** [fmt.Sprintf("%*s", width, s)]. *)
  Sprintf_width_s : Z -> string -> string;
  (** [fmt.Sprintf("%.4g", x)]: a double with at most four significant
      digits. *)
  Sprintf_4g : float -> string;
  (** [Time.Format(layout)]. *)
  Time_Format : Z -> string -> string;
  (** The text that [Color.Fprintf] writes around and with its argument. *)
  Color_Fprintf : color.Color -> string -> string;
  (** [Color.Sprint]. *)
  Color_Sprint : color.Color -> string -> string
}.

(** ** Duration *)

Section DurationFormatter.
Context {ext : Externals}.

Definition durations : list (Z * string) :=
  [ (time.Hour * 24 * 365, "%dy");
    (time.Hour * 24 * 30, "%dm");
    (time.Hour * 24 * 7, "%dw");
    (time.Hour * 24, "%dd");
    (time.Hour, "%dh");
    (time.Minute, "%dm");
    (time.Second, "%ds") ].

(** The [for i := range durations] loop of [Duration]; [tbl] is the part
    of the table from index [i] on, and a [break] returns [s] at once. *)
Fixpoint Duration_loop (tbl : list (Z * string)) (i last d : Z) (s : string)
  : string :=
  match tbl with
  | [] => s
  | (unit_d, unit_s) :: tbl' =>
      if unit_d <=? d then
        if negb (i - 1 =? last) then s
        else
          let s' := s +:+ Go.Sprintf_d unit_s (Z.quot d unit_d) in
          let d' := Z.rem d unit_d in
          if 5 <=? Go.len s' then s'
          else Duration_loop tbl' (i + 1) i d' s'
      else Duration_loop tbl' (i + 1) last d s
  end.

Definition Duration (d : Z) : string :=
  if d <? time.Microsecond then Go.Sprintf_d "%dns" d
  else if d <? time.Millisecond then
    Sprintf_4g (Go.float64 d / 1000)%float +:+ "µs"
  else if d <? time.Second then
    Sprintf_4g (Go.float64 d / 1000 / 1000)%float +:+ "ms"
  else if d <? time.Minute then
    Sprintf_4g (Go.float64 d / 1000 / 1000 / 1000)%float +:+ "s"
  else Duration_loop durations 0 (-1) d "".

End DurationFormatter.

(** ** The handler *)

(** One formatted write into the handler's buffer, with the arguments of
    the call; the bytes follow by [render]. *)
Inductive fwrite : Type :=
| FHeader (colr : color.Color) (timestamp level : string)
| FMessage (msg : string)
| FMessagePadded (width : Z) (msg : string)
| FRight (key : color.Color) (name : string) (width : Z) (val : value)
| FLeft (key : color.Color) (name : string) (val : value) (pad : string)
| FNewline.

(** [bytes.Buffer]: what was written, and how much of it was read off. *)
Record Buffer : Type := mkBuffer {
  written : list fwrite;
  off : Z
}.

Record keyStat : Type := mkKeyStat {
  MaxLength : Z;
  Count : Z;
  RightAlignable : Z
}.

Definition max (a b : Z) : Z := if b <? a then a else b.

Definition newline : string := String "010" EmptyString.

(** The letter class [[a-z]] under the flag [(?i)]: Go folds case with
    Unicode simple folding, which besides [A-Z] brings in the two runes
    that fold to an ASCII letter, U+017F (long s) and U+212A (Kelvin
    sign), here as their UTF-8 bytes. *)
Definition long_s : string := String "197" (String "191" EmptyString).
Definition kelvin : string :=
  String "226" (String "132" (String "170" EmptyString)).

Definition re_digit : Go.regexp := Go.Byte "0" "9".
Definition re_letter : Go.regexp :=
  Go.Alt (Go.Byte "a" "z")
    (Go.Alt (Go.Byte "A" "Z") (Go.Alt (Go.Lit long_s) (Go.Lit kelvin))).

(** [(?i)^\d+(\.\d+)? ?([a-z]{1,5})?$] *)
Definition reNumType : Go.regexp :=
  Go.Cat (Go.Plus re_digit)
    (Go.Cat (Go.Opt (Go.Cat (Go.Byte "." ".") (Go.Plus re_digit)))
       (Go.Cat (Go.Opt (Go.Byte " " " "))
          (Go.Opt (Go.Rep re_letter 1 5)))).

Definition isTypeRightAlignable (x : value) : bool :=
  match x with
  | VUint _ | VUint8 _ | VUint16 _ | VUint32 _ | VUint64 _
  | VInt _ | VInt8 _ | VInt16 _ | VInt32 _ | VInt64 _
  | VFloat32 _ | VFloat64 _
  | VComplex64 _ _ | VComplex128 _ _
  | VDuration _ | VDurationPtr _ => true
  | VString v => Go.MatchString reNumType v
  | VBytes v => Go.MatchString reNumType v
  | _ => false
  end.

(** [LevelColors] *)
Definition LevelColors (l : Level) : color.Color :=
  match l with
  | DebugLevel => color.New [color.FgBlue]
  | InfoLevel => color.New [color.FgGreen]
  | WarnLevel => color.New [color.FgYellow]
  | ErrorLevel => color.New [color.FgRed]
  | FatalLevel => color.New [color.BgRed; color.FgWhite]
  end.

(** [LevelSymbol] *)
Definition LevelSymbol (l : Level) : string :=
  match l with
  | DebugLevel => "D"
  | InfoLevel => "I"
  | WarnLevel => "W"
  | ErrorLevel => "E"
  | FatalLevel => "F"
  end.

(** [uint32(x)] and [byte(x)] of a non-negative integer. *)
Definition uint32 (x : Z) : Z := x mod 2 ^ 32.
Definition byte (x : Z) : Z := x mod 2 ^ 8.

Definition mapColor (v : Z) : Z :=
  let v := uint32 (byte v) in
  byte (uint32 (uint32 (v * 5) / 10 + 105)).

Definition getKeyColor (key : string) : color.Color :=
  if String.eqb key "error" then LevelColors ErrorLevel
  else
    let sum := Go.ChecksumIEEE key in
    let r := mapColor (Z.shiftr sum 24) in
    let g := mapColor (Z.shiftr sum 16) in
    let b := mapColor (Z.shiftr sum 8) in
    color.RGB r g b.

Section Handler.
Context {ext : Externals} {W : Type} {sink : Go.Writer W}.

Record Handler : Type := mkHandler {
  Writer : W;
  Timestamp : string;
  lengths : gmap string keyStat;
  buf : Buffer
}.

(** [New]; wrapping a file in a colorable writer is the caller's sink. *)
Definition New (w : W) : Handler :=
  {| Writer := w; Timestamp := "15:04:05.000"; lengths := ∅;
     buf := mkBuffer [] 0 |}.

(** The bytes of one formatted write. *)
Definition render (w : fwrite) : string :=
  match w with
  | FHeader colr ts level => Color_Fprintf colr (ts +:+ " " +:+ level)
  | FMessage msg => " " +:+ msg
  | FMessagePadded width msg => " " +:+ Sprintf_width_s width msg
  | FRight key name width val =>
      " " +:+ Color_Sprint key name +:+ "=" +:+ Sprintf_width_v width val
  | FLeft key name val pad =>
      " " +:+ Color_Sprint key name +:+ "=" +:+ Sprint_v val +:+ pad
  | FNewline => newline
  end.

(** The unread bytes of a buffer. *)
Definition Bytes (b : Buffer) : string :=
  Go.drop_bytes (off b) (Go.concat_bytes (map render (written b))).

(** [Buffer.Reset]. *)
Definition Reset (h : Handler) : Handler :=
  {| Writer := Writer h; Timestamp := Timestamp h; lengths := lengths h;
     buf := mkBuffer [] 0 |}.

(** A formatted write into the buffer; writing to a [bytes.Buffer] never
    reports an error. *)
Definition Fprintf (h : Handler) (w : fwrite) : Handler * Go.error :=
  ({| Writer := Writer h; Timestamp := Timestamp h; lengths := lengths h;
      buf := mkBuffer (written (buf h) ++ [w]) (off (buf h)) |}, None).

Definition set_lengths (h : Handler) (name : string) (kstat : keyStat)
  : Handler :=
  {| Writer := Writer h; Timestamp := Timestamp h;
     lengths := <[name := kstat]> (lengths h); buf := buf h |}.

(** [h.lengths[name]]: the zero value for a name not seen yet. *)
Definition stat (h : Handler) (name : string) : keyStat :=
  default (mkKeyStat 0 0 0) (lengths h !! name).

(** The value that is measured, classified and printed: a duration is
    replaced by its compact rendering. *)
Definition shown (val : value) : value :=
  match val with
  | VDuration dur => VString (Duration dur)
  | _ => val
  end.

Definition writeNameValue (h : Handler) (e : Entry) (name : string) (i : Z)
  (names : list string) : Handler * Go.error :=
  let val := shown (Get (Fields e) name) in
  let sw := StringWidth (Sprint_v val) in
  let kstat := stat h name in
  let kstat :=
    mkKeyStat (max (MaxLength kstat) sw) (Count kstat) (RightAlignable kstat) in
  let kstat :=
    mkKeyStat (MaxLength kstat) (Go.int_add (Count kstat) 1)
      (RightAlignable kstat) in
  let kstat :=
    if Go.int_add sw 20 <? MaxLength kstat
    then mkKeyStat sw (Count kstat) (RightAlignable kstat)
    else kstat in
  let isRight := isTypeRightAlignable val in
  let kstat :=
    if isRight
    then mkKeyStat (MaxLength kstat) (Count kstat)
           (Go.int_add (RightAlignable kstat) 1)
    else kstat in
  let isRight := Z.quot (Count kstat) 2 <? RightAlignable kstat in
  let h := set_lengths h name kstat in
  if isRight then
    let '(h, err) :=
      Fprintf h (FRight (getKeyColor name) name (MaxLength kstat) val) in
    match err with
    | Some _ => (h, err)
    | None => (h, None)
    end
  else
    let pad :=
      if (sw <? MaxLength kstat)
         && negb (Go.int_add i 1 =? Z.of_nat (length names))
      then Go.Repeat " " (Go.int_sub (MaxLength kstat) sw)
      else "" in
    Fprintf h (FLeft (getKeyColor name) name val pad).

Definition names_less (e : Entry) (a b : string) : bool :=
  let aright := isTypeRightAlignable (Get (Fields e) a) in
  let bright := isTypeRightAlignable (Get (Fields e) b) in
  if negb (Bool.eqb aright bright) then aright
  else Go.string_lt a b.

Definition sortNames (e : Entry) (names : list string) : list string :=
  Go.Slice (names_less e) names.

(** The [for i, name := range names] loop of [HandleLog], from index [i]
    on; [rest] is [names[i:]]. *)
Fixpoint writeFields (h : Handler) (e : Entry) (i : Z) (rest : list string)
  (names : list string) : Handler * Go.error :=
  match rest with
  | [] => (h, None)
  | name :: rest' =>
      if String.eqb name "source" then writeFields h e (i + 1) rest' names
      else
        let '(h, err) := writeNameValue h e name i names in
        match err with
        | Some _ => (h, err)
        | None => writeFields h e (i + 1) rest' names
        end
  end.

(** [HandleLog] up to and including the final [Fprintln]: the line is
    assembled in the buffer. *)
Definition fillBuffer (h : Handler) (e : Entry) : Handler * Go.error :=
  let colr := LevelColors (Level_ e) in
  let level := LevelSymbol (Level_ e) in
  let names := sortNames e (Names (Fields e)) in
  let h := Reset h in
  let '(h, err) :=
    Fprintf h (FHeader colr (Time_Format (Timestamp_ e) (Timestamp h)) level) in
  match err with
  | Some _ => (h, err)
  | None =>
      let '(h, err) :=
        if negb (String.eqb (Message e) "")
        then Fprintf h (FMessage (Message e))
        else (h, err) in
      match err with
      | Some _ => (h, err)
      | None =>
          let '(h, err) := writeFields h e 0 names names in
          match err with
          | Some _ => (h, err)
          | None => Fprintf h FNewline
          end
      end
  end.

(** [Buffer.WriteTo]: one [Write] of the unread bytes.  A sink that claims
    more bytes than it was given makes the buffer panic; an error or a
    short count is returned and leaves the buffer advanced but not reset. *)
Definition WriteTo (h : Handler) : Handler * Go.result :=
  let nBytes := Go.len (Bytes (buf h)) in
  if 0 <? nBytes then
    let '(w, m, e) := Go.Write (Writer h) (Bytes (buf h)) in
    let h :=
      {| Writer := w; Timestamp := Timestamp h; lengths := lengths h;
         buf := buf h |} in
    if nBytes <? m then (h, Go.Panic "bytes.Buffer.WriteTo: invalid Write count")
    else
      let h :=
        {| Writer := w; Timestamp := Timestamp h; lengths := lengths h;
           buf := mkBuffer (written (buf h)) (off (buf h) + m) |} in
      match e with
      | Some _ => (h, Go.Return e)
      | None =>
          if negb (m =? nBytes) then (h, Go.Return Go.ErrShortWrite)
          else (Reset h, Go.Return None)
      end
  else (Reset h, Go.Return None).

Definition HandleLog (h : Handler) (e : Entry) : Handler * Go.result :=
  let '(h, err) := fillBuffer h e in
  match err with
  | Some _ => (h, Go.Return err)
  | None => WriteTo h
  end.

End Handler.

(** ** The first revision, with a fixed palette of key colors

    [sortNames], [max], [reNumType] and [isTypeRightAlignable] read the same
    there as above.  The map of lengths holds a plain width per name, the
    message is padded like a field under the name ["msg"], and no result of
    a write is looked at. *)

Module Palette.

Definition LevelColors (l : Level) : color.Color :=
  match l with
  | DebugLevel => color.New [color.FgWhite]
  | InfoLevel => color.New [color.FgBlue]
  | WarnLevel => color.New [color.FgYellow]
  | ErrorLevel => color.New [color.FgRed]
  | FatalLevel => color.New [color.FgHiRed]
  end.

Definition KeyColors : list color.Color :=
  [ color.New [color.FgRed];
    color.New [color.FgGreen];
    color.New [color.FgYellow];
    color.New [color.FgBlue];
    color.New [color.FgMagenta];
    color.New [color.FgCyan];
    color.New [color.FgHiRed];
    color.New [color.FgHiGreen];
    color.New [color.FgHiYellow];
    color.New [color.FgHiBlue];
    color.New [color.FgHiMagenta];
    color.New [color.FgHiCyan] ].

(** [KeyColors[i]]; both uses index below the length of the array. *)
Definition KeyColors_at (i : Z) : color.Color :=
  nth (Z.to_nat i) KeyColors (color.New []).

Definition getKeyColor (key : string) : color.Color :=
  if String.eqb key "error" then KeyColors_at 6
  else
    let sum := Go.ChecksumIEEE key in
    let sum := uint32 (Z.rem sum (uint32 (Z.of_nat (length KeyColors)))) in
    KeyColors_at sum.

Section Handler.
Context {ext : Externals} {W : Type} {sink : Go.Writer W}.

Record Handler : Type := mkHandler {
  Writer : W;
  Timestamp : string;
  lengths : gmap string Z;
  buf : Buffer
}.

Definition New (w : W) : Handler :=
  {| Writer := w; Timestamp := ""; lengths := ∅; buf := mkBuffer [] 0 |}.

Definition Bytes (b : Buffer) : string :=
  Go.drop_bytes (off b) (Go.concat_bytes (map render (written b))).

Definition Reset (h : Handler) : Handler :=
  {| Writer := Writer h; Timestamp := Timestamp h; lengths := lengths h;
     buf := mkBuffer [] 0 |}.

Definition Fprintf (h : Handler) (w : fwrite) : Handler :=
  {| Writer := Writer h; Timestamp := Timestamp h; lengths := lengths h;
     buf := mkBuffer (written (buf h) ++ [w]) (off (buf h)) |}.

Definition set_length (h : Handler) (name : string) (l : Z) : Handler :=
  {| Writer := Writer h; Timestamp := Timestamp h;
     lengths := <[name := l]> (lengths h); buf := buf h |}.

Definition length_of (h : Handler) (name : string) : Z :=
  default 0 (lengths h !! name).

(** The body of the loop over the names, for a name other than
    ["source"]. *)
Definition writeField (h : Handler) (e : Entry) (name : string) (i : Z)
  (names : list string) : Handler :=
  let val := Get (Fields e) name in
  let sw := StringWidth (Sprint_v val) in
  let h := set_length h name (max (length_of h name) sw) in
  let l := length_of h name in
  let '(l, h) :=
    if Go.int_add sw 20 <? l then (sw, set_length h name sw) else (l, h) in
  if isTypeRightAlignable val then
    Fprintf h (FRight (getKeyColor name) name (length_of h name) val)
  else
    let pad :=
      if (sw <? l) && negb (Go.int_add i 1 =? Z.of_nat (length names))
      then Go.Repeat " " (Go.int_sub l sw)
      else "" in
    Fprintf h (FLeft (getKeyColor name) name val pad).

Fixpoint writeFields (h : Handler) (e : Entry) (i : Z) (rest : list string)
  (names : list string) : Handler :=
  match rest with
  | [] => h
  | name :: rest' =>
      if String.eqb name "source" then writeFields h e (i + 1) rest' names
      else writeFields (writeField h e name i names) e (i + 1) rest' names
  end.

(** [HandleLog] up to and including the final [Fprintln]. *)
Definition fillBuffer (h : Handler) (e : Entry) : Handler :=
  let colr := LevelColors (Level_ e) in
  let level := LevelSymbol (Level_ e) in
  let names := sortNames e (Names (Fields e)) in
  let sw := StringWidth (Message e) in
  let h := set_length h "msg" (max (length_of h "msg") sw) in
  let h :=
    Fprintf h (FHeader colr (Time_Format (Timestamp_ e) (Timestamp h)) level) in
  let h :=
    Fprintf h
      (FMessagePadded (Go.int_sub 0 (length_of h "msg")) (Message e)) in
  let h := writeFields h e 0 names names in
  Fprintf h FNewline.

(** [Buffer.WriteTo], as above. *)
Definition WriteTo (h : Handler) : Handler * Go.result :=
  let nBytes := Go.len (Bytes (buf h)) in
  if 0 <? nBytes then
    let '(w, m, e) := Go.Write (Writer h) (Bytes (buf h)) in
    let h :=
      {| Writer := w; Timestamp := Timestamp h; lengths := lengths h;
         buf := buf h |} in
    if nBytes <? m then (h, Go.Panic "bytes.Buffer.WriteTo: invalid Write count")
    else
      let h :=
        {| Writer := w; Timestamp := Timestamp h; lengths := lengths h;
           buf := mkBuffer (written (buf h)) (off (buf h) + m) |} in
      match e with
      | Some _ => (h, Go.Return e)
      | None =>
          if negb (m =? nBytes) then (h, Go.Return Go.ErrShortWrite)
          else (Reset h, Go.Return None)
      end
  else (Reset h, Go.Return None).

(** What [WriteTo] returns is dropped; only its panic gets through. *)
Definition HandleLog (h : Handler) (e : Entry) : Handler * Go.result :=
  let h := fillBuffer h e in
  match WriteTo h with
  | (h, Go.Panic msg) => (h, Go.Panic msg)
  | (h, Go.Return _) => (Reset h, Go.Return None)
  end.

End Handler.

End Palette.

(** ** The revision in between

    It has the handler structure, the level colors and the unchecked
    writes of the palette revision, takes the key colors from the name's
    checksum as the handler above does, though over another band, and
    moves the body of the loop into [writeNameValue]. *)

Module Interim.

Definition LevelColors (l : Level) : color.Color :=
  match l with
  | DebugLevel => color.New [color.FgWhite]
  | InfoLevel => color.New [color.FgBlue]
  | WarnLevel => color.New [color.FgYellow]
  | ErrorLevel => color.New [color.FgRed]
  | FatalLevel => color.New [color.FgHiRed]
  end.

Definition mapColor (v : Z) : Z := byte (v / 2 + 64).

Definition getKeyColor (key : string) : color.Color :=
  if String.eqb key "error" then LevelColors ErrorLevel
  else
    let sum := Go.ChecksumIEEE key in
    let r := mapColor (byte (Z.shiftr sum 24)) in
    let g := mapColor (byte (Z.shiftr sum 16)) in
    let b := mapColor (byte (Z.shiftr sum 8)) in
    color.RGB r g b.

Section Handler.
Context {ext : Externals} {W : Type} {sink : Go.Writer W}.

Definition New (w : W) : @Palette.Handler W :=
  {| Palette.Writer := w; Palette.Timestamp := "060102 15:04:05";
     Palette.lengths := ∅; Palette.buf := mkBuffer [] 0 |}.

Definition writeNameValue (h : @Palette.Handler W) (e : Entry)
  (name : string) (i : Z) (names : list string) : @Palette.Handler W :=
  let val := Get (Fields e) name in
  let sw := StringWidth (Sprint_v val) in
  let h := Palette.set_length h name (max (Palette.length_of h name) sw) in
  let l := Palette.length_of h name in
  let '(l, h) :=
    if Go.int_add sw 20 <? l then (sw, Palette.set_length h name sw)
    else (l, h) in
  if isTypeRightAlignable val then
    Palette.Fprintf h
      (FRight (getKeyColor name) name (Palette.length_of h name) val)
  else
    let pad :=
      if (sw <? l) && negb (Go.int_add i 1 =? Z.of_nat (length names))
      then Go.Repeat " " (Go.int_sub l sw)
      else "" in
    Palette.Fprintf h (FLeft (getKeyColor name) name val pad).

Fixpoint writeFields (h : @Palette.Handler W) (e : Entry) (i : Z)
  (rest : list string) (names : list string) : @Palette.Handler W :=
  match rest with
  | [] => h
  | name :: rest' =>
      if String.eqb name "source" then writeFields h e (i + 1) rest' names
      else writeFields (writeNameValue h e name i names) e (i + 1) rest' names
  end.

Definition fillBuffer (h : @Palette.Handler W) (e : Entry)
  : @Palette.Handler W :=
  let colr := LevelColors (Level_ e) in
  let level := LevelSymbol (Level_ e) in
  let names := sortNames e (Names (Fields e)) in
  let sw := StringWidth (Message e) in
  let h :=
    Palette.set_length h "msg" (max (Palette.length_of h "msg") sw) in
  let h :=
    Palette.Fprintf h
      (FHeader colr (Time_Format (Timestamp_ e) (Palette.Timestamp h))
         level) in
  let h :=
    Palette.Fprintf h
      (FMessagePadded (Go.int_sub 0 (Palette.length_of h "msg"))
         (Message e)) in
  let h := writeFields h e 0 names names in
  Palette.Fprintf h FNewline.

Definition HandleLog (h : @Palette.Handler W) (e : Entry)
  : @Palette.Handler W * Go.result :=
  let h := fillBuffer h e in
  match Palette.WriteTo h with
  | (h, Go.Panic msg) => (h, Go.Panic msg)
  | (h, Go.Return _) => (Palette.Reset h, Go.Return None)
  end.

End Handler.

End Interim.

(** ** A plain terminal and two sinks, to run the handler on *)

Module Sample.

(** ASCII text on a terminal without colors: one column per byte.  The
    samples hold integers, strings and booleans; what else there is prints
    as a question mark. *)
Definition show (v : value) : string :=
  match v with
  | VUint n | VUint8 n | VUint16 n | VUint32 n | VUint64 n
  | VInt n | VInt8 n | VInt16 n | VInt32 n | VInt64 n => Go.itoa n
  | VString s => s
  | VBool true => "true"
  | VBool false => "false"
  | VNil => "<nil>"
  | VOther _ repr => repr
  | _ => "?"
  end.

Definition pad_left (width : Z) (s : string) : string :=
  Go.Repeat " " (width - Go.len s) +:+ s.

Definition pad_either (width : Z) (s : string) : string :=
  if width <? 0 then s +:+ Go.Repeat " " (- width - Go.len s)
  else pad_left width s.

#[export] Instance plain : Externals := {|
  StringWidth := Go.len;
  Sprint_v := show;
  Sprintf_width_v := fun width v => pad_either width (show v);
  Sprintf_width_s := pad_either;
  Sprintf_4g := fun _ => "0";
  Time_Format := fun _ layout => layout;
  Color_Fprintf := fun _ s => s;
  Color_Sprint := fun _ s => s
|}.

(** A sink that takes every write and keeps what it was given. *)
Definition keeping : Go.Writer (list string) :=
  fun w p => ((w ++ [p])%list, Go.len p, None).

(** A sink that takes nothing. *)
Definition closed : Go.Writer (list string) :=
  fun w p => ((w ++ [p])%list, 0, Some "write on closed pipe").

(** A sink that takes one byte of every write and reports no error. *)
Definition choked : Go.Writer (list string) :=
  fun w p => ((w ++ [p])%list, 1, None).

Definition entry (level : Level) (msg : string)
  (fields : list (string * value)) : Entry :=
  mkEntry level 0 msg (list_to_map fields).

Definition starting : Entry :=
  entry InfoLevel "starting"
    [("count", VInt 42); ("name", VString "worker-1");
     ("source", VString "main.go:10")].

End Sample.

(** ** Notions the properties are stated with *)

(** Reading a decimal numeral back. *)
Definition atoi (s : string) : option Z :=
  option_map Z.of_int (NilZero.int_of_string s).

(** [reflect.Kind]: the kind of a type.  A defined type has the kind of
    the type it is defined from, so [time.Duration] and [time.Month] are
    of the integer kinds [int64] and [int]. *)
Inductive Kind : Type :=
| KInvalid | KBool
| KInt | KInt8 | KInt16 | KInt32 | KInt64
| KUint | KUint8 | KUint16 | KUint32 | KUint64 | KUintptr
| KFloat32 | KFloat64 | KComplex64 | KComplex128
| KString | KSlice | KPtr | KOther.

Fixpoint kind_of (x : value) : Kind :=
  match x with
  | VUint _ => KUint | VUint8 _ => KUint8 | VUint16 _ => KUint16
  | VUint32 _ => KUint32 | VUint64 _ => KUint64
  | VInt _ => KInt | VInt8 _ => KInt8 | VInt16 _ => KInt16
  | VInt32 _ => KInt32 | VInt64 _ => KInt64
  | VFloat32 _ => KFloat32 | VFloat64 _ => KFloat64
  | VComplex64 _ _ => KComplex64 | VComplex128 _ _ => KComplex128
  | VDuration _ => KInt64
  | VDurationPtr _ => KPtr
  | VString _ => KString
  | VBytes _ => KSlice
  | VBool _ => KBool
  | VNil => KInvalid
  | VUintptr _ => KUintptr
  | VNamed _ underlying => kind_of underlying
  | VOther _ _ => KOther
  end.

(** The numeric kinds: the signed and unsigned integers of every width,
    the floating point and the complex numbers. *)
Definition is_numeric (k : Kind) : bool :=
  match k with
  | KInt | KInt8 | KInt16 | KInt32 | KInt64
  | KUint | KUint8 | KUint16 | KUint32 | KUint64 | KUintptr
  | KFloat32 | KFloat64 | KComplex64 | KComplex128 => true
  | _ => false
  end.

(** Whether the dynamic type is a defined type, as [time.Duration] is,
    and not a predeclared type or a type literal. *)
Definition defined_type (x : value) : bool :=
  match x with
  | VDuration _ | VNamed _ _ => true
  | _ => false
  end.

Definition is_digit (c : ascii) : bool := Go.in_range "0" "9" c.

Definition is_ascii_letter (c : ascii) : bool :=
  Go.in_range "a" "z" c || Go.in_range "A" "Z" c.

(** One or more decimal digits. *)
Inductive digits : string -> Prop :=
| digits_one c : is_digit c = true -> digits (String c "")
| digits_more c s : is_digit c = true -> digits s -> digits (String c s).

(** One letter, case-insensitively: an ASCII letter of either case, or
    one of the two runes that fold to one. *)
Definition letter (l : string) : Prop :=
  (exists c, l = String c "" /\ is_ascii_letter c = true)
  \/ l = long_s \/ l = kelvin.

(** A unit suffix of one to five letters. *)
Definition unit_suffix (u : string) : Prop :=
  exists ls : list string,
    u = Go.concat_bytes ls /\ Forall letter ls
    /\ (1 <= length ls <= 5)%nat.

(** Digits, an optional dot plus digits, an optional single space and an
    optional unit suffix, and nothing else. *)
Definition NumericLooking (s : string) : Prop :=
  exists whole frac sp u : string,
    s = whole +:+ frac +:+ sp +:+ u
    /\ digits whole
    /\ (frac = "" \/ exists f, frac = "." +:+ f /\ digits f)
    /\ (sp = "" \/ sp = " ")
    /\ (u = "" \/ unit_suffix u).

(** The numeric pattern as the specification writes it,
    [^\d+(\.\d+)? ?[A-Za-z]{0,5}$], with the ASCII letters of either case
    for its letters. *)
Definition re_ascii_letter : Go.regexp :=
  Go.Alt (Go.Byte "a" "z") (Go.Byte "A" "Z").

Definition spec_reNumType : Go.regexp :=
  Go.Cat (Go.Plus re_digit)
    (Go.Cat (Go.Opt (Go.Cat (Go.Byte "." ".") (Go.Plus re_digit)))
       (Go.Cat (Go.Opt (Go.Byte " " " ")) (Go.Rep re_ascii_letter 0 5))).

Inductive alignment : Type := RIGHT | LEFT.

(** How a formatted write aligns its value, and the field it is for. *)
Definition rendered_alignment (w : fwrite) : option alignment :=
  match w with
  | FRight _ _ _ _ => Some RIGHT
  | FLeft _ _ _ _ => Some LEFT
  | _ => None
  end.

Definition field_name (w : fwrite) : option string :=
  match w with
  | FRight _ name _ _ => Some name
  | FLeft _ name _ _ => Some name
  | _ => None
  end.

(** The names of the fields of a line, in the order they were written. *)
Definition field_names (ws : list fwrite) : list string :=
  omap field_name ws.

(** [a] stands somewhere before [b] in [l]. *)
Definition before {A : Type} (l : list A) (a b : A) : Prop :=
  exists l1 l2 l3, l = (l1 ++ a :: l2 ++ b :: l3)%list.

(** The names that [HandleLog] does not skip. *)
Definition not_source (name : string) : bool :=
  negb (String.eqb name "source").

(** The width rule on its own: the maximum, then the decay. *)
Definition track_step (maxWidth displayWidth : Z) : Z :=
  let maxWidth := Z.max maxWidth displayWidth in
  if displayWidth + 20 <? maxWidth then displayWidth else maxWidth.

Definition track (ws : list Z) : Z := fold_left track_step ws 0.

(** The columns a field's value takes up with its padding. *)
Definition column_width (displayWidth : Z) (w : fwrite) : Z :=
  match w with
  | FRight _ _ width _ => width
  | FLeft _ _ _ pad => displayWidth + Go.len pad
  | _ => displayWidth
  end.

Section Observations.
Context {ext : Externals} {W : Type}.

(** One call of [writeNameValue], by its arguments. *)
Record call : Type := mkCall {
  call_entry : Entry;
  call_name : string;
  call_index : Z;
  call_names : list string
}.

Definition do_call (h : @Handler W) (c : call) : Handler :=
  fst (writeNameValue h (call_entry c) (call_name c) (call_index c)
         (call_names c)).

Definition run_calls (h : @Handler W) (cs : list call) : Handler :=
  fold_left do_call cs h.

(** The value a call measures and its display width. *)
Definition call_value (c : call) : value :=
  shown (Get (Fields (call_entry c)) (call_name c)).

Definition call_width (c : call) : Z := StringWidth (Sprint_v (call_value c)).

Definition observes (name : string) (c : call) : bool :=
  String.eqb (call_name c) name.

(** The observations of [name] among the calls, those of them that vote
    for the right, and their widths. *)
Definition sampleCount (name : string) (cs : list call) : Z :=
  Z.of_nat (length (List.filter (observes name) cs)).

Definition rightVotes (name : string) (cs : list call) : Z :=
  Z.of_nat
    (length
       (List.filter
          (fun c => observes name c && isTypeRightAlignable (call_value c))
          cs)).

Definition widths (name : string) (cs : list call) : list Z :=
  map call_width (List.filter (observes name) cs).

(** The alignment of the last write of a handler. *)
Definition last_alignment (h : @Handler W) : option alignment :=
  last (written (buf h)) ≫= rendered_alignment.

(** The line [HandleLog] assembles for an entry. *)
Definition line (h : @Handler W) (e : Entry) : list fwrite :=
  written (buf (fst (fillBuffer h e))).

(** The classifier's verdict on a field of an entry. *)
Definition right_aligning (e : Entry) (name : string) : bool :=
  isTypeRightAlignable (Get (Fields e) name).

End Observations.

(** An observation of the field ["f"] on its own. *)
Definition observation (v : value) : call :=
  mkCall (Sample.entry InfoLevel "" [("f", v)]) "f" 0 ["f"].

(** A table of units in which, from [bound] down, no unit holds a hundred
    of the next, and every format is the count followed by one letter. *)
Fixpoint unit_chain (bound : Z) (tbl : list (Z * string)) : Prop :=
  match tbl with
  | [] => True
  | (unit_d, unit_s) :: tbl' =>
      0 < unit_d /\ bound <= 100 * unit_d
      /\ (exists c, forall q,
             Go.Sprintf_d unit_s q = Go.itoa q +:+ String c "")
      /\ unit_chain unit_d tbl'
  end.

(** * Properties *)

Example crc32_check : Go.ChecksumIEEE "123456789" = 0xcbf43926.
Proof. reflexivity. Qed.


(** ** Arithmetic on machine integers *)

Lemma wrap64_small (z : Z) : - 2 ^ 63 <= z < 2 ^ 63 -> Go.wrap64 z = z.
Proof.
  intros Hz. unfold Go.wrap64.
  rewrite Z.mod_small by lia. lia.
Qed.

Lemma max_is_Zmax (a b : Z) : max a b = Z.max a b.
Proof. unfold max. destruct (Z.ltb_spec b a); lia. Qed.

Lemma max_ge_r (a b : Z) : b <= max a b.
Proof. rewrite max_is_Zmax. lia. Qed.

(** ** Duration *)

Lemma atoi_itoa (n : Z) : atoi (Go.itoa n) = Some n.
Proof.
  unfold atoi, Go.itoa.
  rewrite NilZero.isi.
  - simpl. f_equal. apply DecimalZ.of_to.
  - destruct n as [|p|p]; cbn; intros H; try discriminate H.
    injection H as H. exact (DecimalPos.Unsigned.to_uint_nonnil p H).
  - destruct n as [|p|p]; cbn; intros H; try discriminate H.
    injection H as H. exact (DecimalPos.Unsigned.to_uint_nonnil p H).
Qed.

Section DurationProperties.
Context {ext : Externals}.

(** C9: a duration from zero up to, and not including, one microsecond is
    rendered as its nanosecond count in decimal, which reads back as the
    same number, followed by "ns"; 500 gives "500ns" and 0 gives "0ns". *)
Theorem Duration_nanoseconds (d : Z) :
  0 <= d < time.Microsecond ->
  (Duration d = Go.itoa d +:+ "ns" /\ atoi (Go.itoa d) = Some d)
  /\ Duration 500 = "500ns"
  /\ Duration 0 = "0ns".
Proof.
  intros [_ Hd]. repeat split.
  - unfold Duration.
    apply Z.ltb_lt in Hd. rewrite Hd. reflexivity.
  - apply atoi_itoa.
Qed.

(** Once the accumulated text is empty and no unit has matched, the loop
    from any index past the first can only stop with the empty text. *)
Lemma Duration_loop_no_start (tbl : list (Z * string)) (i d : Z) :
  1 <= i -> Duration_loop tbl i (-1) d "" = "".
Proof.
  revert i. induction tbl as [|[unit_d unit_s] tbl IH]; intros i Hi.
  - reflexivity.
  - simpl. destruct (unit_d <=? d).
    + replace (i - 1 =? -1) with false by (symmetry; apply Z.eqb_neq; lia).
      reflexivity.
    + apply IH. lia.
Qed.

Lemma Duration_loop_skip (unit_d : Z) (unit_s : string)
  (tbl : list (Z * string)) (i last d : Z) (s : string) :
  (unit_d <=? d) = false ->
  Duration_loop ((unit_d, unit_s) :: tbl) i last d s
  = Duration_loop tbl (i + 1) last d s.
Proof. intros H. simpl. rewrite H. reflexivity. Qed.

(** C1: from one minute up to, and not including, 365 days the loop breaks
    at the first unit that fits, because that unit is not the first of the
    table, and [Duration] returns the empty string; ninety seconds do not
    render as "1m30s". *)
Theorem Duration_below_a_year_is_empty (d : Z) :
  time.Minute <= d < time.Hour * 24 * 365 ->
  Duration d = "" /\ Duration 90000000000 = "".
Proof.
  intros [Hlo Hhi]. split; [|reflexivity].
  unfold Duration.
  assert (Hmin : time.Minute = 60000000000) by reflexivity.
  rewrite Hmin in Hlo.
  replace (d <? time.Microsecond) with false
    by (symmetry; apply Z.ltb_ge; unfold time.Microsecond, time.Nanosecond; lia).
  replace (d <? time.Millisecond) with false
    by (symmetry; apply Z.ltb_ge; vm_compute (time.Millisecond); lia).
  replace (d <? time.Second) with false
    by (symmetry; apply Z.ltb_ge; vm_compute (time.Second); lia).
  replace (d <? time.Minute) with false
    by (symmetry; apply Z.ltb_ge; rewrite Hmin; lia).
  unfold durations. rewrite Duration_loop_skip by (apply Z.leb_gt; exact Hhi).
  apply Duration_loop_no_start. lia.
Qed.

(** From a year on the units follow one another until one is missing
    or five characters are reached. *)
Example Duration_from_a_year_on :
  Duration (time.Hour * 24 * (365 + 2 * 30 + 8)) = "1y2m1w"
  /\ Duration (time.Hour * 24 * (12 * 365 + 2 * 30 + 8)) = "12y2m"
  /\ Duration (time.Hour * 24 * (365 + 8)) = "1y".
Proof. repeat split; reflexivity. Qed.

End DurationProperties.

Lemma Duration_nanoseconds_witness :
  (@Duration Sample.plain 500 = Go.itoa 500 +:+ "ns"
   /\ atoi (Go.itoa 500) = Some 500)
  /\ @Duration Sample.plain 500 = "500ns"
  /\ @Duration Sample.plain 0 = "0ns".
Proof.
  apply (@Duration_nanoseconds Sample.plain 500).
  vm_compute. split; [intro H; discriminate H | reflexivity].
Defined.

Lemma Duration_below_a_year_is_empty_witness :
  @Duration Sample.plain 3600000000000 = ""
  /\ @Duration Sample.plain 90000000000 = "".
Proof.
  apply (@Duration_below_a_year_is_empty Sample.plain 3600000000000).
  vm_compute. split; [intro H; discriminate H | reflexivity].
Defined.

(** ** Key colors *)

(** The palette revision gives the key "error" the seventh entry of its
    palette, bright red, while it paints the ERROR level in plain red. *)
Lemma Palette_error_key_is_not_the_level_color :
  Palette.getKeyColor "error" <> Palette.LevelColors ErrorLevel.
Proof. vm_compute. intros H. discriminate H. Qed.

(** C2, as the revisions have it: the handler, and the revision before
    it, return for the key "error" the ERROR entry of their table of level
    colors; the palette revision returns the fixed palette entry 6, bright
    red, which is the color of its FATAL level and not that of its ERROR
    level, plain red. *)
Theorem error_key_color :
  getKeyColor "error" = LevelColors ErrorLevel
  /\ Interim.getKeyColor "error" = Interim.LevelColors ErrorLevel
  /\ Palette.getKeyColor "error" = Palette.KeyColors_at 6
  /\ Palette.KeyColors_at 6 = color.New [color.FgHiRed]
  /\ Palette.LevelColors ErrorLevel = color.New [color.FgRed]
  /\ Palette.getKeyColor "error" = Palette.LevelColors FatalLevel.
Proof. repeat split. Qed.

(** Every other key of the handler gets a 24-bit color with each channel
    in the band from 105 to 232. *)
Lemma mapColor_band (v : Z) : 105 <= mapColor v <= 232.
Proof.
  unfold mapColor, byte, uint32.
  assert (H : 0 <= v mod 2 ^ 8 < 2 ^ 8) by (apply Z.mod_pos_bound; lia).
  change (2 ^ 8) with 256 in *. change (2 ^ 32) with 4294967296.
  rewrite (Z.mod_small (v mod 256)) by lia.
  rewrite (Z.mod_small (v mod 256 * 5)) by lia.
  assert (0 <= v mod 256 * 5 / 10 <= 127).
  { split; [apply Z.div_pos; lia|].
    apply Z.lt_succ_r. apply Z.div_lt_upper_bound; lia. }
  rewrite (Z.mod_small (_ + 105) 4294967296) by lia.
  rewrite Z.mod_small by lia. lia.
Qed.

Lemma getKeyColor_rgb (key : string) :
  key <> "error" ->
  exists r g b,
    getKeyColor key = color.RGB r g b
    /\ 105 <= r <= 232 /\ 105 <= g <= 232 /\ 105 <= b <= 232.
Proof.
  intros Hk. unfold getKeyColor.
  destruct (String.eqb_spec key "error") as [->|_]; [contradiction|].
  eexists _, _, _. split; [reflexivity|].
  repeat split; apply mapColor_band.
Qed.

(** ** Byte strings *)

Lemma append_nil_l (s : string) : "" +:+ s = s.
Proof. reflexivity. Qed.

Lemma append_cons (c : ascii) (s t : string) :
  String c s +:+ t = String c (s +:+ t).
Proof. reflexivity. Qed.

Lemma append_nil_r (s : string) : s +:+ "" = s.
Proof.
  induction s as [|c s IH]; [reflexivity|].
  rewrite append_cons, IH. reflexivity.
Qed.

Lemma append_assoc (s t u : string) : (s +:+ t) +:+ u = s +:+ (t +:+ u).
Proof.
  induction s as [|c s IH]; [reflexivity|].
  rewrite !append_cons, IH. reflexivity.
Qed.

Lemma append_eq_nil (s t : string) : s +:+ t = "" -> s = "" /\ t = "".
Proof.
  destruct s as [|c s]; [rewrite append_nil_l; auto|].
  rewrite append_cons. discriminate.
Qed.

Lemma length_append (s t : string) :
  String.length (s +:+ t) = (String.length s + String.length t)%nat.
Proof.
  induction s as [|c s IH]; [reflexivity|].
  rewrite append_cons. simpl. rewrite IH. reflexivity.
Qed.

(** ** The matcher decides the language of an expression *)

Module RegexpFacts.
Import Go.

Lemma in_range_point (c c' : ascii) : in_range c c c' = true <-> c' = c.
Proof.
  unfold in_range. rewrite andb_true_iff, !N.leb_le. split.
  - intros [H1 H2].
    assert (E : N_of_ascii c' = N_of_ascii c) by lia.
    rewrite <- (ascii_N_embedding c'), <- (ascii_N_embedding c), E.
    reflexivity.
  - intros ->. lia.
Qed.

Lemma nullable_Lang (r : regexp) : nullable r = true <-> Lang r "".
Proof.
  split.
  - induction r as [| | lo hi | r1 IH1 r2 IH2 | r1 IH1 r2 IH2 | r IH];
      simpl; intros H; try discriminate H.
    + constructor.
    + apply andb_true_iff in H as [H1 H2].
      change "" with ("" +:+ ""). constructor; auto.
    + apply orb_true_iff in H as [H|H].
      * apply LAltL; auto.
      * apply LAltR; auto.
    + constructor.
  - intros H. remember "" as s eqn:Es.
    induction H as [| lo hi c Hc | r1 r2 s1 s2 H1 IH1 H2 IH2
                   | r1 r2 s H IH | r1 r2 s H IH | r
                   | r s1 s2 H1 IH1 H2 IH2]; simpl; try reflexivity.
    + discriminate Es.
    + apply append_eq_nil in Es as [-> ->].
      rewrite IH1, IH2; reflexivity.
    + rewrite IH; [reflexivity | exact Es].
    + rewrite IH; [apply orb_true_r | exact Es].
Qed.

Lemma deriv_sound (c : ascii) (r : regexp) (s : string) :
  Lang (deriv c r) s -> Lang r (String c s).
Proof.
  revert s.
  induction r as [| | lo hi | r1 IH1 r2 IH2 | r1 IH1 r2 IH2 | r IH];
    simpl; intros s H.
  - inversion H.
  - inversion H.
  - destruct (in_range lo hi c) eqn:Hc; inversion H; subst.
    constructor. exact Hc.
  - destruct (nullable r1) eqn:Hn.
    + inversion H as [| | | ? ? ? H' | ? ? ? H' | |]; subst.
      * inversion H' as [| | ? ? s1 s2 Ha Hb | | | |]; subst.
        rewrite <- append_cons. constructor; auto.
      * rewrite <- (append_nil_l (String c s)). constructor; auto.
        apply nullable_Lang. exact Hn.
    + inversion H as [| | ? ? s1 s2 Ha Hb | | | |]; subst.
      rewrite <- append_cons. constructor; auto.
  - inversion H; subst.
    + apply LAltL; auto.
    + apply LAltR; auto.
  - inversion H as [| | ? ? s1 s2 Ha Hb | | | |]; subst.
    rewrite <- append_cons. constructor; auto.
Qed.

Lemma deriv_complete (c : ascii) (r : regexp) (s t : string) :
  Lang r t -> t = String c s -> Lang (deriv c r) s.
Proof.
  intros H. revert s.
  induction H as [| lo hi c' Hc | r1 r2 s1 s2 H1 IH1 H2 IH2
                 | r1 r2 t H IH | r1 r2 t H IH | r
                 | r s1 s2 H1 IH1 H2 IH2]; intros s E; simpl.
  - discriminate E.
  - injection E as -> <-. rewrite Hc. constructor.
  - destruct s1 as [|c1 s1].
    + rewrite append_nil_l in E.
      apply nullable_Lang in H1. rewrite H1.
      apply LAltR. apply IH2. exact E.
    + rewrite append_cons in E. injection E as -> <-.
      assert (Lang (Cat (deriv c r1) r2) (s1 +:+ s2))
        by (constructor; auto).
      destruct (nullable r1); [apply LAltL|]; assumption.
  - apply LAltL. auto.
  - apply LAltR. auto.
  - discriminate E.
  - destruct s1 as [|c1 s1].
    + rewrite append_nil_l in E. apply (IH2 s E).
    + rewrite append_cons in E. injection E as -> <-.
      constructor; auto.
Qed.

Lemma MatchString_Lang (r : regexp) (s : string) :
  MatchString r s = true <-> Lang r s.
Proof.
  revert r. induction s as [|c s IH]; intros r; simpl.
  - apply nullable_Lang.
  - rewrite IH. split.
    + apply deriv_sound.
    + intros H. eapply deriv_complete; [exact H | reflexivity].
Qed.

Lemma Lang_Cat (r1 r2 : regexp) (s : string) :
  Lang (Cat r1 r2) s
  <-> exists s1 s2, s = s1 +:+ s2 /\ Lang r1 s1 /\ Lang r2 s2.
Proof.
  split.
  - intros H. inversion H; subst. eauto.
  - intros (s1 & s2 & -> & H1 & H2). constructor; auto.
Qed.

Lemma Lang_Alt (r1 r2 : regexp) (s : string) :
  Lang (Alt r1 r2) s <-> Lang r1 s \/ Lang r2 s.
Proof.
  split.
  - intros H. inversion H; subst; auto.
  - intros [H|H]; [apply LAltL | apply LAltR]; exact H.
Qed.

Lemma Lang_Eps (s : string) : Lang Eps s <-> s = "".
Proof.
  split.
  - intros H. inversion H. reflexivity.
  - intros ->. constructor.
Qed.

Lemma Lang_Byte (lo hi : ascii) (s : string) :
  Lang (Byte lo hi) s
  <-> exists c, s = String c "" /\ in_range lo hi c = true.
Proof.
  split.
  - intros H. inversion H; subst. eauto.
  - intros (c & -> & Hc). constructor. exact Hc.
Qed.

Lemma Lang_Opt (r : regexp) (s : string) :
  Lang (Opt r) s <-> s = "" \/ Lang r s.
Proof. unfold Opt. rewrite Lang_Alt, Lang_Eps. tauto. Qed.

Lemma Lang_Lit (t s : string) : Lang (Lit t) s <-> s = t.
Proof.
  revert s. induction t as [|c t IH]; intros s; simpl.
  - apply Lang_Eps.
  - rewrite Lang_Cat. split.
    + intros (s1 & s2 & -> & H1 & H2).
      apply Lang_Byte in H1 as (c' & -> & Hc).
      apply in_range_point in Hc as ->. apply IH in H2 as ->.
      reflexivity.
    + intros ->. exists (String c ""), t. repeat split.
      * apply Lang_Byte. exists c. split; [reflexivity|].
        apply in_range_point. reflexivity.
      * apply IH. reflexivity.
Qed.

End RegexpFacts.

(** ** The numeric pattern, in words *)

Module PatternFacts.
Import Go RegexpFacts.

Lemma concat_bytes_app (l1 l2 : list string) :
  concat_bytes (l1 ++ l2) = concat_bytes l1 +:+ concat_bytes l2.
Proof.
  induction l1 as [|x l1 IH]; [reflexivity|].
  simpl. rewrite IH, append_assoc. reflexivity.
Qed.

Lemma Lang_Exactly (r : regexp) (n : nat) (u : string) :
  Lang (Exactly n r) u
  <-> exists ls, u = concat_bytes ls /\ Forall (Lang r) ls /\ length ls = n.
Proof.
  revert u. induction n as [|n IH]; intros u; simpl.
  - rewrite Lang_Eps. split.
    + intros ->. exists []. auto.
    + intros (ls & -> & _ & Hl). destruct ls; [reflexivity | discriminate Hl].
  - rewrite Lang_Cat. split.
    + intros (s1 & s2 & -> & H1 & H2).
      apply IH in H2 as (ls & -> & Hls & Hl).
      exists (s1 :: ls). simpl. auto.
    + intros (ls & -> & Hls & Hl). destruct ls as [|x ls]; [discriminate Hl|].
      inversion Hls; subst. exists x, (concat_bytes ls).
      repeat split; auto. apply IH. exists ls. auto.
Qed.

Lemma Lang_AtMost (r : regexp) (n : nat) (u : string) :
  Lang (AtMost n r) u
  <-> exists ls,
        u = concat_bytes ls /\ Forall (Lang r) ls /\ (length ls <= n)%nat.
Proof.
  revert u. induction n as [|n IH]; intros u; simpl.
  - rewrite Lang_Eps. split.
    + intros ->. exists []. auto.
    + intros (ls & -> & _ & Hl). destruct ls; [reflexivity | simpl in Hl; lia].
  - rewrite Lang_Opt, Lang_Cat. split.
    + intros [->|(s1 & s2 & -> & H1 & H2)].
      * exists []. simpl. repeat split; auto; lia.
      * apply IH in H2 as (ls & -> & Hls & Hl).
        exists (s1 :: ls). simpl. repeat split; auto; lia.
    + intros (ls & -> & Hls & Hl). destruct ls as [|x ls]; [left; reflexivity|].
      right. inversion Hls; subst. exists x, (concat_bytes ls).
      repeat split; auto. apply IH. exists ls. simpl in Hl.
      repeat split; auto; lia.
Qed.

Lemma Lang_Rep (r : regexp) (lo hi : nat) (u : string) :
  (lo <= hi)%nat ->
  Lang (Rep r lo hi) u
  <-> exists ls,
        u = concat_bytes ls /\ Forall (Lang r) ls
        /\ (lo <= length ls <= hi)%nat.
Proof.
  intros Hlh. unfold Rep. rewrite Lang_Cat. split.
  - intros (s1 & s2 & -> & H1 & H2).
    apply Lang_Exactly in H1 as (l1 & -> & Hl1 & Hn1).
    apply Lang_AtMost in H2 as (l2 & -> & Hl2 & Hn2).
    exists (l1 ++ l2)%list. rewrite concat_bytes_app, length_app.
    repeat split; try lia; auto. apply Forall_app. auto.
  - intros (ls & -> & Hls & Hn).
    exists (concat_bytes (take lo ls)), (concat_bytes (drop lo ls)).
    rewrite <- concat_bytes_app, take_drop. split; [reflexivity|]. split.
    + apply Lang_Exactly. exists (take lo ls). repeat split.
      * apply Forall_take. exact Hls.
      * rewrite length_take. lia.
    + apply Lang_AtMost. exists (drop lo ls). repeat split.
      * apply Forall_drop. exact Hls.
      * rewrite length_drop. lia.
Qed.

Lemma Lang_Star_digits (s : string) :
  Lang (Star re_digit) s -> s = "" \/ digits s.
Proof.
  intros H. remember (Star re_digit) as r eqn:Er.
  induction H as [| | | | | r | r s1 s2 H1 IH1 H2 IH2]; try discriminate Er.
  - left. reflexivity.
  - injection Er as ->.
    apply Lang_Byte in H1 as (c & -> & Hc).
    right. rewrite append_cons, append_nil_l.
    destruct (IH2 eq_refl) as [->|Hd].
    + apply digits_one. exact Hc.
    + apply digits_more; assumption.
Qed.

Lemma Lang_digits (s : string) : Lang (Plus re_digit) s <-> digits s.
Proof.
  unfold Plus. rewrite Lang_Cat. split.
  - intros (s1 & s2 & -> & H1 & H2).
    apply Lang_Byte in H1 as (c & -> & Hc).
    rewrite append_cons, append_nil_l.
    destruct (Lang_Star_digits _ H2) as [->|Hd].
    + apply digits_one. exact Hc.
    + apply digits_more; assumption.
  - intros H. induction H as [c Hc | c s Hc Hd IH].
    + exists (String c ""), "". repeat split.
      * apply Lang_Byte. eauto.
      * constructor.
    + exists (String c ""), s. repeat split.
      * apply Lang_Byte. eauto.
      * destruct IH as (s1 & s2 & -> & H1 & H2). constructor; assumption.
Qed.

Lemma Lang_letter (l : string) : Lang re_letter l <-> letter l.
Proof.
  unfold re_letter, letter, is_ascii_letter.
  rewrite !Lang_Alt, !Lang_Byte, !Lang_Lit. split.
  - intros [(c & -> & Hc)|[(c & -> & Hc)|[->| ->]]]; auto.
    + left. exists c. rewrite Hc. auto.
    + left. exists c. rewrite Hc, orb_true_r. auto.
  - intros [(c & -> & Hc)|[->| ->]]; auto.
    apply orb_true_iff in Hc as [Hc|Hc]; eauto.
Qed.

Lemma Lang_unit_suffix (u : string) :
  Lang (Rep re_letter 1 5) u <-> unit_suffix u.
Proof.
  rewrite Lang_Rep by lia. unfold unit_suffix.
  split; intros (ls & -> & Hls & Hn); exists ls; repeat split; try lia;
    (eapply Forall_impl; [exact Hls|]); intros l; apply Lang_letter.
Qed.

Lemma reNumType_NumericLooking (s : string) :
  MatchString reNumType s = true <-> NumericLooking s.
Proof.
  rewrite MatchString_Lang. unfold reNumType, NumericLooking.
  rewrite Lang_Cat. split.
  - intros (whole & s1 & -> & Hw & H1).
    apply Lang_Cat in H1 as (frac & s2 & -> & Hf & H2).
    apply Lang_Cat in H2 as (sp & u & -> & Hsp & Hu).
    exists whole, frac, sp, u. split; [reflexivity|].
    split; [apply Lang_digits; exact Hw|].
    split.
    { apply Lang_Opt in Hf as [->|Hf]; [left; reflexivity|right].
      apply Lang_Cat in Hf as (dot & f & -> & Hdot & Hf).
      apply Lang_Byte in Hdot as (c & -> & Hc).
      apply in_range_point in Hc as ->.
      exists f. split; [reflexivity | apply Lang_digits; exact Hf]. }
    split.
    { apply Lang_Opt in Hsp as [->|Hsp]; [left; reflexivity|right].
      apply Lang_Byte in Hsp as (c & -> & Hc).
      apply in_range_point in Hc as ->. reflexivity. }
    apply Lang_Opt in Hu as [->|Hu]; [left; reflexivity|right].
    apply Lang_unit_suffix. exact Hu.
  - intros (whole & frac & sp & u & -> & Hw & Hf & Hsp & Hu).
    exists whole, (frac +:+ sp +:+ u). split; [reflexivity|].
    split; [apply Lang_digits; exact Hw|].
    apply Lang_Cat. exists frac, (sp +:+ u). split; [reflexivity|]. split.
    { apply Lang_Opt. destruct Hf as [->|(f & -> & Hf)]; [left; reflexivity|].
      right. apply Lang_Cat. exists ".", f. repeat split.
      - apply Lang_Byte. exists "."%char. split; reflexivity.
      - apply Lang_digits. exact Hf. }
    apply Lang_Cat. exists sp, u. split; [reflexivity|]. split.
    { apply Lang_Opt. destruct Hsp as [->| ->]; [left; reflexivity|].
      right. apply Lang_Byte. exists " "%char. split; reflexivity. }
    apply Lang_Opt. destruct Hu as [->|Hu]; [left; reflexivity|].
    right. apply Lang_unit_suffix. exact Hu.
Qed.

End PatternFacts.

(** ** The alignment classifier *)

Lemma Lang_ascii_letter (l : string) :
  Go.Lang re_ascii_letter l -> letter l.
Proof.
  unfold re_ascii_letter, letter, is_ascii_letter.
  rewrite RegexpFacts.Lang_Alt, !RegexpFacts.Lang_Byte.
  intros [(c & -> & Hc)|(c & -> & Hc)]; left; exists c; rewrite Hc.
  - auto.
  - rewrite orb_true_r. auto.
Qed.

(** What the pattern of the specification accepts, the handler's pattern
    accepts. *)
Lemma spec_reNumType_included (s : string) :
  Go.MatchString spec_reNumType s = true ->
  Go.MatchString reNumType s = true.
Proof.
  rewrite PatternFacts.reNumType_NumericLooking, RegexpFacts.MatchString_Lang.
  unfold spec_reNumType, NumericLooking. rewrite RegexpFacts.Lang_Cat.
  intros (whole & s1 & -> & Hw & H1).
  apply RegexpFacts.Lang_Cat in H1 as (frac & s2 & -> & Hf & H2).
  apply RegexpFacts.Lang_Cat in H2 as (sp & u & -> & Hsp & Hu).
  exists whole, frac, sp, u. split; [reflexivity|].
  split; [apply PatternFacts.Lang_digits; exact Hw|].
  split.
  { apply RegexpFacts.Lang_Opt in Hf as [->|Hf]; [left; reflexivity|right].
    apply RegexpFacts.Lang_Cat in Hf as (dot & f & -> & Hdot & Hf).
    apply RegexpFacts.Lang_Byte in Hdot as (c & -> & Hc).
    apply RegexpFacts.in_range_point in Hc as ->.
    exists f. split; [reflexivity | apply PatternFacts.Lang_digits; exact Hf]. }
  split.
  { apply RegexpFacts.Lang_Opt in Hsp as [->|Hsp]; [left; reflexivity|right].
    apply RegexpFacts.Lang_Byte in Hsp as (c & -> & Hc).
    apply RegexpFacts.in_range_point in Hc as ->. reflexivity. }
  apply PatternFacts.Lang_Rep in Hu as (ls & -> & Hls & Hn); [|lia].
  destruct ls as [|l ls]; [left; reflexivity|right].
  exists (l :: ls). split; [reflexivity|]. split.
  - eapply Forall_impl; [exact Hls|]. intros x. apply Lang_ascii_letter.
  - simpl in *. lia.
Qed.

(** The classifier goes by the dynamic type, not by the kind: [uintptr]
    and a defined integer type are of a numeric kind and are LEFT, a
    pointer to a duration is of no numeric kind and is RIGHT; and a digit
    followed by the Kelvin sign, which the pattern of the specification
    does not match, is RIGHT. *)
Lemma classifier_is_not_by_kind :
  (is_numeric (kind_of (VUintptr 1)) = true
   /\ isTypeRightAlignable (VUintptr 1) = false)
  /\ (is_numeric (kind_of (VNamed "time.Month" (VInt 3))) = true
      /\ isTypeRightAlignable (VNamed "time.Month" (VInt 3)) = false)
  /\ (is_numeric (kind_of (VDurationPtr (Some 5))) = false
      /\ isTypeRightAlignable (VDurationPtr (Some 5)) = true)
  /\ (Go.MatchString spec_reNumType ("1" +:+ kelvin) = false
      /\ isTypeRightAlignable (VString ("1" +:+ kelvin)) = true).
Proof. repeat split; reflexivity. Qed.

(** C5, as the code has it: the classifier is a function defined on every
    value, and it goes by the dynamic type.  It answers RIGHT for a value
    of a numeric kind whose type is a predeclared one other than uintptr
    (uint, uint8 to uint64, int, int8 to int64, float32, float64,
    complex64, complex128), for a time.Duration and for a pointer to one,
    and for a value of type string or []byte that as a whole is digits,
    optionally a dot and digits, optionally one space, optionally one to
    five letters, a letter being an ASCII letter of either case or one of
    the two runes that fold to one, U+017F and U+212A.  It answers LEFT
    for every other value, uintptr and the other defined types of a
    numeric kind among them.  It accepts all that the pattern with the
    letters A-Z and a-z accepts; "10" and "3.5 ms" are RIGHT, "abc" and
    "-" are LEFT. *)
Theorem classifier_goes_by_dynamic_type :
  (forall x : value,
     isTypeRightAlignable x = true
     <-> (is_numeric (kind_of x) = true /\ defined_type x = false
          /\ kind_of x <> KUintptr)
         \/ (exists d, x = VDuration d)
         \/ (exists p, x = VDurationPtr p)
         \/ (exists s, (x = VString s \/ x = VBytes s) /\ NumericLooking s))
  /\ (forall s,
        Go.MatchString spec_reNumType s = true ->
        isTypeRightAlignable (VString s) = true
        /\ isTypeRightAlignable (VBytes s) = true)
  /\ isTypeRightAlignable (VString "10") = true
  /\ isTypeRightAlignable (VString "3.5 ms") = true
  /\ isTypeRightAlignable (VString "abc") = false
  /\ isTypeRightAlignable (VString "-") = false.
Proof.
  split; [|split; [|repeat split; reflexivity]].
  - intros x. split.
    + intros H.
      destruct x; simpl in H; try discriminate H;
        first
          [ left; repeat split; discriminate
          | right; left; eexists; reflexivity
          | right; right; left; eexists; reflexivity
          | right; right; right; eexists; (split; [eauto|]);
            apply PatternFacts.reNumType_NumericLooking; exact H ].
    + intros [(Hn & Hd & Hk)|[[d ->]|[[p ->]|(s & [-> | ->] & H)]]];
        try reflexivity.
      * destruct x; simpl in Hn, Hd, Hk |- *; try discriminate;
          try reflexivity.
        exfalso. apply Hk. reflexivity.
      * apply PatternFacts.reNumType_NumericLooking. exact H.
      * apply PatternFacts.reNumType_NumericLooking. exact H.
  - intros s H. apply spec_reNumType_included in H. split; exact H.
Qed.

Lemma classifier_goes_by_dynamic_type_witness :
  isTypeRightAlignable (VString "10 ms") = true
  /\ isTypeRightAlignable (VBytes "10 ms") = true.
Proof.
  apply (proj1 (proj2 classifier_goes_by_dynamic_type) "10 ms").
  reflexivity.
Defined.

(** The byte sequences are judged like the strings, and the two runes that
    fold to an ASCII letter count as letters. *)
Example isTypeRightAlignable_more :
  isTypeRightAlignable (VBytes "10 ms") = true
  /\ isTypeRightAlignable (VString ("1" +:+ kelvin)) = true
  /\ isTypeRightAlignable (VString "12 abcdef") = false
  /\ isTypeRightAlignable (VBool true) = false
  /\ isTypeRightAlignable VNil = false.
Proof. repeat split; reflexivity. Qed.

(** ** The width and vote bookkeeping of [writeNameValue] *)

Section Tracker.
Context {ext : Externals} {W : Type}.
Implicit Types (h : @Handler W) (e : Entry) (c : call) (cs : list call).

(** [writeNameValue] in one piece: the new statistics of the name, the one
    write it appends, and no error. *)
Lemma writeNameValue_eq h e (name : string) (i : Z) (names : list string) :
  let val := shown (Get (Fields e) name) in
  let sw := StringWidth (Sprint_v val) in
  let k0 := stat h name in
  let m := max (MaxLength k0) sw in
  let k :=
    mkKeyStat (if Go.int_add sw 20 <? m then sw else m)
      (Go.int_add (Count k0) 1)
      (if isTypeRightAlignable val then Go.int_add (RightAlignable k0) 1
       else RightAlignable k0) in
  let fw :=
    if Z.quot (Count k) 2 <? RightAlignable k
    then FRight (getKeyColor name) name (MaxLength k) val
    else FLeft (getKeyColor name) name val
           (if (sw <? MaxLength k)
               && negb (Go.int_add i 1 =? Z.of_nat (length names))
            then Go.Repeat " " (Go.int_sub (MaxLength k) sw)
            else "") in
  writeNameValue h e name i names
  = ({| Writer := Writer h; Timestamp := Timestamp h;
        lengths := <[name := k]> (lengths h);
        buf := mkBuffer (written (buf h) ++ [fw]) (off (buf h)) |}, None).
Proof.
  cbv zeta. unfold writeNameValue.
  destruct (Go.int_add _ 20 <? _);
    destruct (isTypeRightAlignable _); cbn [MaxLength Count RightAlignable];
    destruct (Z.quot _ 2 <? _); reflexivity.
Qed.

Lemma stat_New (w : W) (name : string) : stat (New w) name = mkKeyStat 0 0 0.
Proof. unfold stat, New. simpl. rewrite lookup_empty. reflexivity. Qed.

Lemma do_call_stat_other h c (name : string) :
  call_name c <> name -> stat (do_call h c) name = stat h name.
Proof.
  intros Hne. unfold do_call. rewrite writeNameValue_eq. cbv zeta.
  unfold stat. simpl. rewrite lookup_insert_ne by exact Hne. reflexivity.
Qed.

Lemma do_call_stat h c :
  stat (do_call h c) (call_name c)
  = let k0 := stat h (call_name c) in
    let m := max (MaxLength k0) (call_width c) in
    mkKeyStat (if Go.int_add (call_width c) 20 <? m then call_width c else m)
      (Go.int_add (Count k0) 1)
      (if isTypeRightAlignable (call_value c)
       then Go.int_add (RightAlignable k0) 1 else RightAlignable k0).
Proof.
  unfold do_call. rewrite writeNameValue_eq. cbv zeta.
  unfold stat at 1. simpl. rewrite lookup_insert_eq. reflexivity.
Qed.

Lemma do_call_last h c :
  last (written (buf (do_call h c)))
  = Some
      (let k := stat (do_call h c) (call_name c) in
       if Z.quot (Count k) 2 <? RightAlignable k
       then FRight (getKeyColor (call_name c)) (call_name c) (MaxLength k)
              (call_value c)
       else FLeft (getKeyColor (call_name c)) (call_name c) (call_value c)
              (if (call_width c <? MaxLength k)
                  && negb (Go.int_add (call_index c) 1
                           =? Z.of_nat (length (call_names c)))
               then Go.Repeat " " (Go.int_sub (MaxLength k) (call_width c))
               else "")).
Proof.
  rewrite do_call_stat. unfold do_call. rewrite writeNameValue_eq.
  cbv zeta. simpl. rewrite last_snoc. reflexivity.
Qed.

Lemma run_calls_snoc h cs c :
  run_calls h (cs ++ [c]) = do_call (run_calls h cs) c.
Proof. unfold run_calls. rewrite fold_left_app. reflexivity. Qed.

Lemma sampleCount_snoc (name : string) cs c :
  sampleCount name (cs ++ [c])
  = sampleCount name cs + (if observes name c then 1 else 0).
Proof.
  unfold sampleCount. rewrite List.filter_app, length_app. simpl.
  destruct (observes name c); simpl; lia.
Qed.

Lemma rightVotes_snoc (name : string) cs c :
  rightVotes name (cs ++ [c])
  = rightVotes name cs
    + (if observes name c && isTypeRightAlignable (call_value c)
       then 1 else 0).
Proof.
  unfold rightVotes. rewrite List.filter_app, length_app. simpl.
  destruct (observes name c && _); simpl; lia.
Qed.

Lemma widths_snoc (name : string) cs c :
  widths name (cs ++ [c])
  = (widths name cs ++ (if observes name c then [call_width c] else []))%list.
Proof.
  unfold widths. rewrite List.filter_app, map_app. simpl.
  destruct (observes name c); reflexivity.
Qed.

(** The invariant of the data model: no more votes than samples. *)
Lemma rightVotes_le_sampleCount (name : string) cs :
  0 <= rightVotes name cs <= sampleCount name cs.
Proof.
  induction cs as [|c cs IH] using rev_ind.
  - unfold rightVotes, sampleCount. simpl. lia.
  - rewrite rightVotes_snoc, sampleCount_snoc.
    destruct (observes name c), (isTypeRightAlignable (call_value c));
      simpl; lia.
Qed.

Lemma observes_name (name : string) c :
  observes name c = true <-> call_name c = name.
Proof. unfold observes. apply String.eqb_eq. Qed.

(** Below the wrap-around of the counter, the statistics of a name count
    its observations and the votes among them. *)
Lemma counts_after_calls (w : W) (name : string) cs :
  sampleCount name cs < 2 ^ 63 ->
  Count (stat (run_calls (New w) cs) name) = sampleCount name cs
  /\ RightAlignable (stat (run_calls (New w) cs) name) = rightVotes name cs.
Proof.
  induction cs as [|c cs IH] using rev_ind; intros Hn.
  - unfold run_calls. simpl. rewrite stat_New. split; reflexivity.
  - rewrite run_calls_snoc.
    rewrite sampleCount_snoc in Hn |- *. rewrite rightVotes_snoc.
    pose proof (rightVotes_le_sampleCount name cs) as Hle.
    destruct (observes name c) eqn:Ho.
    + apply observes_name in Ho. subst name.
      destruct IH as [IHc IHr]; [lia|].
      rewrite do_call_stat. cbv zeta. simpl.
      rewrite IHc, IHr. unfold Go.int_add. split.
      * apply wrap64_small. lia.
      * destruct (isTypeRightAlignable (call_value c)); [|lia].
        apply wrap64_small. lia.
    + assert (call_name c <> name).
      { intros E. apply observes_name in E. congruence. }
      rewrite do_call_stat_other by assumption.
      destruct IH as [IHc IHr]; [lia|]. simpl. split; lia.
Qed.

(** C3: after any calls of [writeNameValue] on a fresh handler, the last
    of them renders its field right-aligned exactly when, among all the
    calls so far for that name, the votes for the right exceed half the
    samples, the half rounded down; so 3 votes of 5 give RIGHT, 2 of 5
    give LEFT and 3 of 6 give LEFT.  (Stated below the wrap-around of the
    64-bit sample counter.) *)
Theorem alignment_by_majority (w : W) cs c :
  sampleCount (call_name c) (cs ++ [c]) < 2 ^ 63 ->
  (last_alignment (run_calls (New w) (cs ++ [c])) = Some RIGHT
   <-> rightVotes (call_name c) (cs ++ [c])
       > sampleCount (call_name c) (cs ++ [c]) / 2)
  /\ (last_alignment (run_calls (New w) (cs ++ [c])) = Some LEFT
      <-> ~ rightVotes (call_name c) (cs ++ [c])
            > sampleCount (call_name c) (cs ++ [c]) / 2)
  /\ (sampleCount (call_name c) (cs ++ [c]) = 5 ->
      rightVotes (call_name c) (cs ++ [c]) = 3 ->
      last_alignment (run_calls (New w) (cs ++ [c])) = Some RIGHT)
  /\ (sampleCount (call_name c) (cs ++ [c]) = 5 ->
      rightVotes (call_name c) (cs ++ [c]) = 2 ->
      last_alignment (run_calls (New w) (cs ++ [c])) = Some LEFT)
  /\ (sampleCount (call_name c) (cs ++ [c]) = 6 ->
      rightVotes (call_name c) (cs ++ [c]) = 3 ->
      last_alignment (run_calls (New w) (cs ++ [c])) = Some LEFT).
Proof.
  intros Hn.
  destruct (counts_after_calls w (call_name c) (cs ++ [c]) Hn) as [Hc Hr].
  pose proof (rightVotes_le_sampleCount (call_name c) (cs ++ [c])) as Hle.
  assert (Hlast :
    last_alignment (run_calls (New w) (cs ++ [c]))
    = Some (if sampleCount (call_name c) (cs ++ [c]) / 2
               <? rightVotes (call_name c) (cs ++ [c])
            then RIGHT else LEFT)).
  { rewrite <- Hc, <- Hr. rewrite run_calls_snoc.
    unfold last_alignment. rewrite do_call_last. cbv zeta. simpl.
    rewrite <- Z.quot_div_nonneg; [|rewrite run_calls_snoc in Hc; lia|lia].
    destruct (_ <? _); reflexivity. }
  rewrite Hlast. clear Hlast Hc Hr Hn.
  set (n := sampleCount _ _) in *. set (v := rightVotes _ _) in *.
  clearbody n v.
  destruct (Z.ltb_spec (n / 2) v) as [Hlt|Hge].
  - split; [split; [intros _; lia | reflexivity]|].
    split; [split; [discriminate | intros Hx; exfalso; lia]|].
    split; [reflexivity|].
    split; intros En Ev; exfalso; subst n v;
      [change (5 / 2) with 2 in Hlt | change (6 / 2) with 3 in Hlt]; lia.
  - split; [split; [discriminate | intros Hx; exfalso; lia]|].
    split; [split; [intros _; lia | reflexivity]|].
    split; [intros En Ev; exfalso; subst n v;
            change (5 / 2) with 2 in Hge; lia|].
    split; reflexivity.
Qed.

Lemma track_snoc (ws : list Z) (x : Z) :
  track (ws ++ [x]) = track_step (track ws) x.
Proof. unfold track. rewrite fold_left_app. reflexivity. Qed.

(** While adding 20 to a width does not overflow, the stored maximum is
    the width rule folded over the widths seen for the name. *)
Lemma maxWidth_after_calls (w : W) (name : string) cs :
  Forall (fun x => 0 <= x /\ x + 20 < 2 ^ 63) (widths name cs) ->
  MaxLength (stat (run_calls (New w) cs) name) = track (widths name cs).
Proof.
  induction cs as [|c cs IH] using rev_ind; intros Hw.
  - unfold run_calls. simpl. rewrite stat_New. reflexivity.
  - rewrite run_calls_snoc. rewrite widths_snoc in Hw |- *.
    apply Forall_app in Hw as [Hcs Hc].
    destruct (observes name c) eqn:Ho.
    + apply observes_name in Ho. subst name.
      rewrite track_snoc, <- IH by exact Hcs.
      rewrite do_call_stat. cbv zeta. simpl.
      apply Forall_inv in Hc as [Hc0 Hc20].
      unfold Go.int_add. rewrite wrap64_small by lia.
      rewrite max_is_Zmax. reflexivity.
    + assert (call_name c <> name).
      { intros E. apply observes_name in E. congruence. }
      rewrite do_call_stat_other by assumption.
      rewrite app_nil_r. apply IH. exact Hcs.
Qed.

(** C4: for every field name, each observation first raises the stored
    maximum to the display width if that is larger and then, if the
    display width plus 20 is still below the maximum, resets the maximum
    to the display width: the stored maximum is this rule folded over the
    widths observed.  Widths 3, 3, 3, 30 leave 30; widths 30, 5 leave 5.
    (Stated for widths to which 20 can be added within 64 bits.) *)
Theorem maxWidth_tracks_widths (w : W) (name : string) cs :
  Forall (fun x => 0 <= x /\ x + 20 < 2 ^ 63) (widths name cs) ->
  MaxLength (stat (run_calls (New w) cs) name)
  = fold_left
      (fun maxWidth displayWidth =>
         let maxWidth := Z.max maxWidth displayWidth in
         if displayWidth + 20 <? maxWidth then displayWidth else maxWidth)
      (widths name cs) 0
  /\ (widths name cs = [3; 3; 3; 30] ->
      MaxLength (stat (run_calls (New w) cs) name) = 30)
  /\ (widths name cs = [30; 5] ->
      MaxLength (stat (run_calls (New w) cs) name) = 5).
Proof.
  intros Hw. rewrite (maxWidth_after_calls w name cs Hw).
  split; [reflexivity|].
  split; intros ->; reflexivity.
Qed.

(** C10: whatever the handler has seen before, after [writeNameValue] the
    stored width of the name is at least the display width of the value
    just measured; a right-aligned value is formatted to exactly that
    width, a left-aligned one is followed by no padding or by the padding
    up to it, so the column is never narrower than the value. *)
Theorem column_not_narrower h e (name : string) (i : Z)
  (names : list string) :
  StringWidth (Sprint_v (shown (Get (Fields e) name)))
  <= MaxLength (stat (fst (writeNameValue h e name i names)) name)
  /\ exists fw,
       last (written (buf (fst (writeNameValue h e name i names)))) = Some fw
       /\ field_name fw = Some name
       /\ StringWidth (Sprint_v (shown (Get (Fields e) name)))
          <= column_width
               (StringWidth (Sprint_v (shown (Get (Fields e) name)))) fw
       /\ ((exists key val,
              fw = FRight key name
                     (MaxLength
                        (stat (fst (writeNameValue h e name i names)) name))
                     val)
           \/ (exists key val, fw = FLeft key name val "")
           \/ (exists key val,
                 fw = FLeft key name val
                        (Go.Repeat " "
                           (Go.int_sub
                              (MaxLength
                                 (stat (fst (writeNameValue h e name i names))
                                    name))
                              (StringWidth
                                 (Sprint_v (shown (Get (Fields e) name)))))))).
Proof.
  pose (c := mkCall e name i names).
  change (fst (writeNameValue h e name i names)) with (do_call h c).
  change (StringWidth (Sprint_v (shown (Get (Fields e) name))))
    with (call_width c).
  assert (Hge : call_width c <= MaxLength (stat (do_call h c) name)).
  { change name with (call_name c). rewrite do_call_stat. cbv zeta. simpl.
    destruct (_ <? _); [lia | apply max_ge_r]. }
  split; [exact Hge|].
  rewrite do_call_last. cbv zeta. change (call_name c) with name.
  eexists. split; [reflexivity|].
  destruct (Z.quot _ 2 <? _); simpl.
  - repeat split; [exact Hge|]. left. eauto.
  - repeat split.
    + unfold Go.len. lia.
    + destruct (_ && _); right; [right | left]; eauto.
Qed.

End Tracker.

(** Five observations of one field on a plain terminal, three of them
    numbers: the fifth is rendered right-aligned. *)
Lemma alignment_by_majority_witness :
  last_alignment
    (run_calls (ext := Sample.plain) (New ([] : list string))
       ([observation (VInt 1); observation (VString "a");
         observation (VInt 2); observation (VString "b")]
        ++ [observation (VInt 3)]))
  = Some RIGHT.
Proof.
  destruct
    (alignment_by_majority (ext := Sample.plain) ([] : list string)
       [observation (VInt 1); observation (VString "a");
        observation (VInt 2); observation (VString "b")]
       (observation (VInt 3)))
    as (_ & _ & H & _).
  - vm_compute. reflexivity.
  - apply H; vm_compute; reflexivity.
Defined.

(** A value of width 30 and then one of width 5: the stored width decays
    to 5. *)
Lemma maxWidth_tracks_widths_witness :
  MaxLength
    (stat
       (run_calls (ext := Sample.plain) (New ([] : list string))
          [observation (VString "012345678901234567890123456789");
           observation (VString "01234")])
       "f")
  = 5.
Proof.
  destruct
    (maxWidth_tracks_widths (ext := Sample.plain) ([] : list string) "f"
       [observation (VString "012345678901234567890123456789");
        observation (VString "01234")])
    as (_ & _ & H).
  - repeat constructor; vm_compute; intros E; discriminate E.
  - apply H. vm_compute. reflexivity.
Defined.

(** Three values of width 3 and then one of width 30: the stored width
    is 30. *)
Example maxWidth_grows :
  MaxLength
    (stat
       (run_calls (ext := Sample.plain) (New ([] : list string))
          [observation (VString "abc"); observation (VInt 123);
           observation (VString "xyz");
           observation (VString "012345678901234567890123456789")])
       "f")
  = 30.
Proof. vm_compute. reflexivity. Qed.

(** ** Sorting *)

Section SortFacts.
Context {A : Type} (less : A -> A -> bool).
Hypothesis less_asym : forall a b, less a b = true -> less b a = false.
Hypothesis less_trans :
  forall a b c, less b a = false -> less c b = false -> less c a = false.
Hypothesis less_total : forall a b, a <> b -> less a b = false -> less b a = true.

Lemma insert_sorted_perm (x : A) (l : list A) :
  Permutation (Go.insert_sorted less x l) (x :: l).
Proof.
  induction l as [|y l IH]; simpl; [reflexivity|].
  destruct (less x y); [reflexivity|].
  rewrite IH. apply perm_swap.
Qed.

Lemma Slice_perm (l : list A) : Permutation (Go.Slice less l) l.
Proof.
  induction l as [|x l IH]; simpl; [reflexivity|].
  rewrite insert_sorted_perm, IH. reflexivity.
Qed.

Lemma insert_sorted_sorted (x : A) (l : list A) :
  StronglySorted (fun a b => less b a = false) l ->
  StronglySorted (fun a b => less b a = false) (Go.insert_sorted less x l).
Proof.
  induction l as [|y l IH]; simpl; intros Hl.
  - repeat constructor.
  - apply StronglySorted_inv in Hl as [Hl Hy].
    destruct (less x y) eqn:Hxy.
    + constructor; [constructor; assumption|].
      constructor; [apply less_asym; exact Hxy|].
      eapply Forall_impl; [exact Hy|].
      intros z Hz. simpl in Hz.
      apply (less_trans x y z); [apply less_asym; exact Hxy | exact Hz].
    + constructor; [apply IH; exact Hl|].
      rewrite insert_sorted_perm. constructor; assumption.
Qed.

Lemma Slice_sorted (l : list A) :
  StronglySorted (fun a b => less b a = false) (Go.Slice less l).
Proof.
  induction l as [|x l IH]; simpl; [constructor|].
  apply insert_sorted_sorted. exact IH.
Qed.

Lemma sorted_strict (l : list A) :
  NoDup l ->
  StronglySorted (fun a b => less b a = false) l ->
  StronglySorted (fun a b => less a b = true) l.
Proof.
  induction l as [|x l IH]; intros Hnd Hs; [constructor|].
  apply NoDup_cons in Hnd as [Hx Hnd].
  apply StronglySorted_inv in Hs as [Hs Hall].
  constructor; [apply IH; assumption|].
  apply Forall_forall. intros y Hy.
  apply less_total.
  - intros ->. contradiction.
  - rewrite Forall_forall in Hall. apply Hall. exact Hy.
Qed.

(** A slice of distinct elements has one sorted arrangement only, so what
    [sort.Slice] leaves does not depend on how it sorts. *)
Lemma Slice_unique (l l' : list A) :
  NoDup l -> Permutation l' l ->
  StronglySorted (fun a b => less a b = true) l' ->
  l' = Go.Slice less l.
Proof.
  intros Hnd Hp Hs'.
  assert (Hs : StronglySorted (fun a b => less a b = true) (Go.Slice less l)).
  { apply sorted_strict; [|apply Slice_sorted].
    rewrite Slice_perm. exact Hnd. }
  assert (Hpp : Permutation l' (Go.Slice less l))
    by (rewrite Slice_perm; exact Hp).
  clear Hp Hnd. revert Hs Hpp. generalize (Go.Slice less l) as l2.
  induction Hs' as [|a t1 Hs1 IH Ha]; intros l2 Hs2 Hp.
  - apply Permutation_nil in Hp. congruence.
  - destruct l2 as [|b t2].
    { symmetry in Hp. apply Permutation_nil in Hp. discriminate Hp. }
    apply StronglySorted_inv in Hs2 as [Hs2 Hb].
    assert (E : a = b).
    { assert (Hab : a ∈ b :: t2) by (rewrite <- Hp; left).
      assert (Hba : b ∈ a :: t1) by (rewrite Hp; left).
      apply elem_of_cons in Hab as [E|Hab]; [exact E|].
      apply elem_of_cons in Hba as [E|Hba]; [symmetry; exact E|].
      rewrite Forall_forall in Ha, Hb.
      specialize (Ha b Hba). specialize (Hb a Hab).
      apply less_asym in Ha. congruence. }
    subst b. f_equal. apply IH; [exact Hs2|].
    eapply Permutation_cons_inv. exact Hp.
Qed.

End SortFacts.

(** ** The order of the names *)

Lemma string_lt_leb (a b : string) :
  Go.string_lt a b = negb (String.leb b a).
Proof.
  unfold Go.string_lt, String.leb. rewrite (String.compare_antisym b a).
  destruct (String.compare a b); reflexivity.
Qed.

Lemma string_lt_asym (a b : string) :
  Go.string_lt a b = true -> Go.string_lt b a = false.
Proof.
  rewrite !string_lt_leb, negb_true_iff, negb_false_iff. intros H.
  destruct (String.leb_total a b) as [E|E]; [exact E | congruence].
Qed.

Lemma string_lt_trans (a b c : string) :
  Go.string_lt b a = false -> Go.string_lt c b = false ->
  Go.string_lt c a = false.
Proof.
  rewrite !string_lt_leb, !negb_false_iff. intros Hab Hbc.
  apply Is_true_true. apply Is_true_true in Hab, Hbc.
  exact (transitivity (R := String.le) Hab Hbc).
Qed.

Lemma string_lt_total (a b : string) :
  a <> b -> Go.string_lt a b = false -> Go.string_lt b a = true.
Proof.
  rewrite !string_lt_leb, negb_false_iff, negb_true_iff. intros Hne Hba.
  destruct (String.leb a b) eqn:Hab; [|reflexivity].
  exfalso. apply Hne. apply String.leb_antisym; assumption.
Qed.

Lemma names_less_asym (e : Entry) (a b : string) :
  names_less e a b = true -> names_less e b a = false.
Proof.
  unfold names_less.
  destruct (isTypeRightAlignable (Get (Fields e) a)),
    (isTypeRightAlignable (Get (Fields e) b)); simpl;
    try discriminate; try reflexivity; apply string_lt_asym.
Qed.

Lemma names_less_trans (e : Entry) (a b c : string) :
  names_less e b a = false -> names_less e c b = false ->
  names_less e c a = false.
Proof.
  unfold names_less.
  destruct (isTypeRightAlignable (Get (Fields e) a)),
    (isTypeRightAlignable (Get (Fields e) b)),
    (isTypeRightAlignable (Get (Fields e) c)); simpl;
    try discriminate; try reflexivity; apply string_lt_trans.
Qed.

Lemma names_less_total (e : Entry) (a b : string) :
  a <> b -> names_less e a b = false -> names_less e b a = true.
Proof.
  unfold names_less.
  destruct (isTypeRightAlignable (Get (Fields e) a)),
    (isTypeRightAlignable (Get (Fields e) b)); simpl;
    try discriminate; try reflexivity; apply string_lt_total.
Qed.

Lemma Names_perm (f : gmap string value) :
  Permutation (Names f) (map fst (map_to_list f)).
Proof. unfold Names, Go.Strings. apply Slice_perm. Qed.

Lemma Names_NoDup (f : gmap string value) : NoDup (Names f).
Proof. rewrite Names_perm. apply NoDup_fst_map_to_list. Qed.

(** The names of an entry are exactly the keys of its fields. *)
Lemma Names_keys (f : gmap string value) (name : string) :
  name ∈ Names f <-> is_Some (f !! name).
Proof.
  rewrite Names_perm.
  change (map fst (map_to_list f)) with ((map_to_list f).*1).
  rewrite list_elem_of_fmap. split.
  - intros ([k v] & -> & H). apply elem_of_map_to_list in H. simpl. eauto.
  - intros [v Hv]. exists (name, v). split; [reflexivity|].
    apply elem_of_map_to_list. exact Hv.
Qed.

Lemma sortNames_perm (e : Entry) (names : list string) :
  Permutation (sortNames e names) names.
Proof. apply Slice_perm. Qed.

Lemma sortNames_sorted (e : Entry) (names : list string) :
  NoDup names ->
  StronglySorted (fun a b => names_less e a b = true) (sortNames e names).
Proof.
  intros Hnd. apply sorted_strict.
  - apply names_less_total.
  - rewrite sortNames_perm. exact Hnd.
  - apply Slice_sorted.
    + apply names_less_asym.
    + apply names_less_trans.
Qed.

Lemma filter_sorted {A : Type} (R : A -> A -> Prop) (p : A -> bool)
  (l : list A) :
  StronglySorted R l -> StronglySorted R (List.filter p l).
Proof.
  induction 1 as [|x l Hs IH Hx]; simpl; [constructor|].
  destruct (p x); [|exact IH].
  constructor; [exact IH|].
  rewrite Forall_forall in Hx |- *. intros y Hy.
  apply Hx. apply list_elem_of_In in Hy. apply List.filter_In in Hy as [Hy _].
  apply list_elem_of_In. exact Hy.
Qed.

Lemma before_sorted {A : Type} (R : A -> A -> Prop) (l : list A) (a b : A) :
  StronglySorted R l -> before l a b -> R a b.
Proof.
  intros Hs (l1 & l2 & l3 & ->).
  induction l1 as [|x l1 IH]; simpl in Hs.
  - apply StronglySorted_inv in Hs as [_ Hall].
    rewrite Forall_forall in Hall. apply Hall.
    apply elem_of_app. right. left.
  - apply StronglySorted_inv in Hs as [Hs _]. apply IH. exact Hs.
Qed.

(** ** The line of an entry *)

Lemma omap_map_Some {A B : Type} (f : A -> option B) (l : list A)
  (l' : list B) :
  map f l = map Some l' -> omap f l = l'.
Proof.
  revert l'. induction l as [|x l IH]; intros [|y l'] H;
    try discriminate H; [reflexivity|].
  simpl in H. injection H as Hx Hl. simpl. rewrite Hx. simpl.
  f_equal. apply IH. exact Hl.
Qed.

Lemma concat_bytes_snoc_length (l : list string) (x : string) :
  Go.len (Go.concat_bytes (l ++ [x])) = Go.len (Go.concat_bytes l) + Go.len x.
Proof.
  rewrite PatternFacts.concat_bytes_app. unfold Go.len. simpl.
  rewrite append_nil_r, length_append. lia.
Qed.

Section LineFacts.
Context {ext : Externals} {W : Type} {sink : Go.Writer W}.
Implicit Types (h : @Handler W) (e : Entry).

(** The loop over the names appends one field write for every name other
    than "source", in order, and nothing else. *)
Lemma writeFields_eq h e (i : Z) (rest names : list string) :
  exists ws lens,
    writeFields h e i rest names
    = ({| Writer := Writer h; Timestamp := Timestamp h; lengths := lens;
          buf := mkBuffer (written (buf h) ++ ws) (off (buf h)) |}, None)
    /\ map field_name ws = map Some (List.filter not_source rest).
Proof.
  revert h i. induction rest as [|name rest IH]; intros h i.
  - exists [], (lengths h). simpl. rewrite app_nil_r.
    destruct h as [w t l [ws o]]. split; reflexivity.
  - simpl. unfold not_source at 1.
    destruct (String.eqb name "source") eqn:Hs; simpl.
    + apply IH.
    + rewrite writeNameValue_eq. cbv zeta.
      match goal with
      | |- context [writeFields ?h1 _ _ _ _] =>
          destruct (IH h1 (i + 1)) as (ws & lens & -> & Hws)
      end.
      simpl. eexists (_ :: ws), lens. rewrite <- app_assoc. simpl.
      split; [reflexivity|]. simpl. rewrite Hws.
      destruct (Z.quot _ 2 <? _); reflexivity.
Qed.

Lemma fillBuffer_eq h e :
  exists ws lens,
    fillBuffer h e
    = ({| Writer := Writer h; Timestamp := Timestamp h; lengths := lens;
          buf :=
            mkBuffer
              (FHeader (LevelColors (Level_ e))
                 (Time_Format (Timestamp_ e) (Timestamp h))
                 (LevelSymbol (Level_ e))
               :: (if String.eqb (Message e) "" then []
                   else [FMessage (Message e)])
               ++ ws ++ [FNewline]) 0 |}, None)
    /\ map field_name ws
       = map Some (List.filter not_source (sortNames e (Names (Fields e)))).
Proof.
  unfold fillBuffer. cbv zeta.
  destruct (String.eqb (Message e) "") eqn:Hm; simpl.
  - match goal with
    | |- context [writeFields ?h1 _ _ ?r ?n] =>
        destruct (writeFields_eq h1 e 0 r n) as (ws & lens & -> & Hws)
    end.
    simpl. exists ws, lens. split; [reflexivity | exact Hws].
  - match goal with
    | |- context [writeFields ?h1 _ _ ?r ?n] =>
        destruct (writeFields_eq h1 e 0 r n) as (ws & lens & -> & Hws)
    end.
    simpl. exists ws, lens. split; [reflexivity | exact Hws].
Qed.

Lemma line_field_names h e :
  field_names (line h e)
  = List.filter not_source (sortNames e (Names (Fields e))).
Proof.
  unfold line. destruct (fillBuffer_eq h e) as (ws & lens & -> & Hws).
  unfold field_names. simpl.
  assert (Hmsg :
    omap field_name
      (if String.eqb (Message e) "" then [] else [FMessage (Message e)])
    = []) by (destruct (String.eqb (Message e) ""); reflexivity).
  rewrite !omap_app, Hmsg. simpl. rewrite app_nil_r.
  apply omap_map_Some. exact Hws.
Qed.

(** The buffer holds the whole line, unread, and the line is not empty. *)
Lemma fillBuffer_bytes h e :
  Bytes (buf (fst (fillBuffer h e))) = Go.concat_bytes (map render (line h e))
  /\ 0 < Go.len (Go.concat_bytes (map render (line h e)))
  /\ snd (fillBuffer h e) = None
  /\ Writer (fst (fillBuffer h e)) = Writer h.
Proof.
  unfold line. destruct (fillBuffer_eq h e) as (ws & lens & -> & _).
  cbn [fst snd buf written off Writer].
  split; [reflexivity|]. split; [|split; reflexivity].
  match goal with
  | |- context [?x :: ?l1 ++ ?l2 ++ [FNewline]] =>
      replace (x :: l1 ++ l2 ++ [FNewline])%list
        with ((x :: l1 ++ l2) ++ [FNewline])%list
        by (simpl; rewrite <- app_assoc; reflexivity)
  end.
  rewrite map_app. change (map render [FNewline]) with [render FNewline].
  rewrite concat_bytes_snoc_length.
  unfold Go.len. simpl. lia.
Qed.

(** Assembling the line never fails, so [HandleLog] always gets to write
    it. *)
Lemma HandleLog_WriteTo h e : HandleLog h e = WriteTo (fst (fillBuffer h e)).
Proof.
  unfold HandleLog.
  destruct (fillBuffer_bytes h e) as (_ & _ & Herr & _).
  destruct (fillBuffer h e) as [h1 err]. simpl in Herr. subst err.
  reflexivity.
Qed.

(** C7: whatever the entry holds, the line that [HandleLog] assembles and
    hands to the sink has no field write for the name "source"; its field
    writes are the sorted names without "source", in order. *)
Theorem source_is_never_rendered h e :
  ~ In "source" (field_names (line h e))
  /\ field_names (line h e)
     = List.filter (fun name => negb (String.eqb name "source"))
         (sortNames e (Names (Fields e)))
  /\ HandleLog h e = WriteTo (fst (fillBuffer h e))
  /\ Bytes (buf (fst (fillBuffer h e)))
     = Go.concat_bytes (map render (line h e)).
Proof.
  split; [|split; [apply line_field_names|split]].
  - rewrite line_field_names. intros H.
    apply List.filter_In in H as [_ H]. discriminate H.
  - apply HandleLog_WriteTo.
  - apply fillBuffer_bytes.
Qed.

(** C6: in the line of every entry, of two fields the one written first
    is the one that sorts first: a field whose value the classifier takes
    for RIGHT stands before every field whose value it takes for LEFT,
    and two fields with the same verdict stand in ascending bytewise order
    of their names. *)
Theorem fields_in_order h e (a b : string) :
  before (field_names (line h e)) a b ->
  (right_aligning e b = true -> right_aligning e a = true)
  /\ (right_aligning e a = right_aligning e b -> String.compare a b = Lt).
Proof.
  intros Hab.
  assert (Hless : names_less e a b = true).
  { revert Hab.
    apply (before_sorted (fun x y => names_less e x y = true)).
    rewrite line_field_names.
    apply filter_sorted. apply sortNames_sorted. apply Names_NoDup. }
  unfold names_less in Hless. unfold right_aligning.
  destruct (isTypeRightAlignable (Get (Fields e) a)),
    (isTypeRightAlignable (Get (Fields e) b)); simpl in Hless;
    try discriminate Hless; split; try reflexivity; try discriminate;
    intros _; unfold Go.string_lt in Hless;
    destruct (String.compare a b); try discriminate Hless; reflexivity.
Qed.

End LineFacts.

(** The line of the entry "starting" with the fields count, name and
    source: count, a number, before name, a text; no source. *)
Example starting_line :
  field_names (line (ext := Sample.plain) (New ([] : list string))
                 Sample.starting)
  = ["count"; "name"].
Proof. vm_compute. reflexivity. Qed.

Lemma fields_in_order_witness :
  (right_aligning Sample.starting "name" = true ->
   right_aligning Sample.starting "count" = true)
  /\ (right_aligning Sample.starting "count"
      = right_aligning Sample.starting "name" ->
      String.compare "count" "name" = Lt).
Proof.
  apply (fields_in_order (ext := Sample.plain) (New ([] : list string))
           Sample.starting "count" "name").
  exists [], [], []. vm_compute. reflexivity.
Defined.

(** ** Errors of the sink *)

Section SinkFacts.
Context {ext : Externals} {W : Type} {sink : Go.Writer W}.

(** [HandleLog] makes one [Write] of the whole line and returns what
    [WriteTo] makes of its answer. *)
Lemma HandleLog_eq (h : @Handler W) (e : Entry) (w' : W) (n : Z)
  (werr : Go.error) :
  Go.Write (Writer h) (Go.concat_bytes (map render (line h e)))
  = (w', n, werr) ->
  n <= Go.len (Go.concat_bytes (map render (line h e))) ->
  snd (HandleLog h e)
  = Go.Return
      match werr with
      | Some _ => werr
      | None =>
          if n =? Go.len (Go.concat_bytes (map render (line h e)))
          then None else Go.ErrShortWrite
      end
  /\ Writer (fst (HandleLog h e)) = w'.
Proof.
  intros HW Hn.
  rewrite HandleLog_WriteTo.
  destruct (fillBuffer_bytes h e) as (Hb & Hpos & _ & Hw).
  unfold WriteTo. rewrite Hb, Hw, HW.
  replace (0 <? _) with true by (symmetry; apply Z.ltb_lt; exact Hpos).
  replace (_ <? n) with false by (symmetry; apply Z.ltb_ge; exact Hn).
  destruct werr as [msg|]; [split; reflexivity|].
  destruct (n =? _); split; reflexivity.
Qed.

(** The two earlier revisions never return an error. *)
Lemma Palette_HandleLog_no_error (hp : @Palette.Handler W) (e : Entry)
  (err : string) :
  snd (Palette.HandleLog hp e) <> Go.Return (Some err).
Proof.
  unfold Palette.HandleLog.
  destruct (Palette.WriteTo (Palette.fillBuffer hp e)) as [h1 [r|msg]];
    simpl; discriminate.
Qed.

Lemma Interim_HandleLog_no_error (hp : @Palette.Handler W) (e : Entry)
  (err : string) :
  snd (Interim.HandleLog hp e) <> Go.Return (Some err).
Proof.
  unfold Interim.HandleLog.
  destruct (Palette.WriteTo (Interim.fillBuffer hp e)) as [h1 [r|msg]];
    simpl; discriminate.
Qed.

(** C8, as the revisions have it.  In the handler, for a sink that
    reports a count of written bytes within the bytes it was given,
    [HandleLog] writes the line to the sink once and returns nil exactly
    when that write reports no error and takes the whole line; an error of
    the write is returned as it is, a short count as [io.ErrShortWrite],
    and the sink is left as that one write left it.  The two earlier
    revisions drop the result of the write and never return an error. *)
Theorem HandleLog_surfaces_write_failure (h : @Handler W)
  (hp : @Palette.Handler W) (e : Entry) (w' : W) (n : Z) (werr : Go.error) :
  Go.Write (Writer h) (Go.concat_bytes (map render (line h e)))
  = (w', n, werr) ->
  0 <= n <= Go.len (Go.concat_bytes (map render (line h e))) ->
  (snd (HandleLog h e) = Go.Return None
   <-> werr = None /\ n = Go.len (Go.concat_bytes (map render (line h e))))
  /\ (forall msg, werr = Some msg -> snd (HandleLog h e) = Go.Return werr)
  /\ (werr = None ->
      n < Go.len (Go.concat_bytes (map render (line h e))) ->
      snd (HandleLog h e) = Go.Return Go.ErrShortWrite)
  /\ Writer (fst (HandleLog h e)) = w'
  /\ (forall err, snd (Palette.HandleLog hp e) <> Go.Return (Some err))
  /\ (forall err, snd (Interim.HandleLog hp e) <> Go.Return (Some err)).
Proof.
  intros HW [Hn0 Hn].
  destruct (HandleLog_eq h e w' n werr HW Hn) as [Hr Hw].
  rewrite Hr. split; [|split; [|split; [|split; [|split]]]].
  - destruct werr as [msg|].
    + split; [discriminate | intros [E _]; discriminate E].
    + destruct (Z.eqb_spec n (Go.len (Go.concat_bytes (map render (line h e)))))
        as [E|E].
      * split; auto.
      * split; [discriminate | intros [_ E']; contradiction].
  - intros msg ->. reflexivity.
  - intros -> Hlt.
    replace (n =? _) with false by (symmetry; apply Z.eqb_neq; lia).
    reflexivity.
  - exact Hw.
  - apply Palette_HandleLog_no_error.
  - apply Interim_HandleLog_no_error.
Qed.

End SinkFacts.

(** On a closed sink the handler returns the error of the write. *)
Lemma HandleLog_surfaces_write_failure_witness :
  snd (HandleLog (ext := Sample.plain) (sink := Sample.closed)
         (New []) Sample.starting)
  = Go.Return (Some "write on closed pipe").
Proof.
  destruct
    (HandleLog_surfaces_write_failure (ext := Sample.plain)
       (sink := Sample.closed) (New []) (Palette.New []) Sample.starting
       ["15:04:05.000 I starting count=42 name=worker-1" +:+ newline]
       0 (Some "write on closed pipe"))
    as (_ & H & _).
  - vm_compute. reflexivity.
  - vm_compute. split; intros E; discriminate E.
  - apply (H "write on closed pipe"). reflexivity.
Defined.

(** The same sink under the palette revision: the write is refused, and
    [HandleLog] returns nil all the same. *)
Lemma Palette_HandleLog_swallows_write_error :
  (forall w p, snd (Sample.closed w p) = Some "write on closed pipe")
  /\ snd (Palette.HandleLog (ext := Sample.plain) (sink := Sample.closed)
            (Palette.New []) Sample.starting)
     = Go.Return None
  /\ length
       (Palette.Writer
          (fst (Palette.HandleLog (ext := Sample.plain)
                  (sink := Sample.closed) (Palette.New [])
                  Sample.starting)))
     = 1%nat.
Proof. split; [reflexivity|]. split; vm_compute; reflexivity. Qed.

(** A sink that takes the line whole, and one that takes a byte of it. *)
Example HandleLog_on_other_sinks :
  HandleLog (ext := Sample.plain) (sink := Sample.keeping) (New [])
    Sample.starting
  = ({| Writer :=
          ["15:04:05.000 I starting count=42 name=worker-1" +:+ newline];
        Timestamp := "15:04:05.000";
        lengths :=
          <["name" := mkKeyStat 8 1 0]>
            (<["count" := mkKeyStat 2 1 1]> ∅);
        buf := mkBuffer [] 0 |}, Go.Return None)
  /\ snd (HandleLog (ext := Sample.plain) (sink := Sample.choked) (New [])
            Sample.starting)
     = Go.Return Go.ErrShortWrite.
Proof. split; vm_compute; reflexivity. Qed.

(** * Further properties of the code *)

(** ** Duration, beyond the nanoseconds *)

Lemma itoa_len_small (q : Z) :
  0 <= q < 1000 ->
  Go.len (Go.itoa q) <= 3 /\ (q < 100 -> Go.len (Go.itoa q) <= 2).
Proof.
  intros Hq.
  assert (Hall :
    forallb
      (fun n =>
         (Go.len (Go.itoa (Z.of_nat n)) <=? 3)
         && ((100 <=? Z.of_nat n) || (Go.len (Go.itoa (Z.of_nat n)) <=? 2)))
      (seq 0 1000) = true) by (vm_compute; reflexivity).
  rewrite List.forallb_forall in Hall.
  assert (Hin : In (Z.to_nat q) (seq 0 1000)) by (apply in_seq; lia).
  specialize (Hall _ Hin). rewrite Z2Nat.id in Hall by lia.
  apply andb_true_iff in Hall as [H3 H2].
  apply Z.leb_le in H3. split; [exact H3|]. intros H100.
  apply orb_true_iff in H2 as [H|H]; [apply Z.leb_le in H; lia|].
  apply Z.leb_le in H. exact H.
Qed.

Section DurationMore.
Context {ext : Externals}.

Lemma Duration_loop_take (unit_d : Z) (unit_s : string)
  (tbl : list (Z * string)) (i last d : Z) (s : string) :
  (unit_d <=? d) = true -> i - 1 = last ->
  Duration_loop ((unit_d, unit_s) :: tbl) i last d s
  = if 5 <=? Go.len (s +:+ Go.Sprintf_d unit_s (Z.quot d unit_d))
    then s +:+ Go.Sprintf_d unit_s (Z.quot d unit_d)
    else Duration_loop tbl (i + 1) i (Z.rem d unit_d)
           (s +:+ Go.Sprintf_d unit_s (Z.quot d unit_d)).
Proof.
  intros H E. simpl. rewrite H.
  replace (i - 1 =? last) with true by (symmetry; apply Z.eqb_eq; exact E).
  reflexivity.
Qed.

(** After a unit was left out, the loop adds nothing more. *)
Lemma Duration_loop_gap (tbl : list (Z * string)) (i last d : Z)
  (s : string) :
  last < i - 1 -> Duration_loop tbl i last d s = s.
Proof.
  revert i. induction tbl as [|[unit_d unit_s] tbl IH]; intros i Hi.
  - reflexivity.
  - simpl. destruct (unit_d <=? d).
    + replace (i - 1 =? last) with false by (symmetry; apply Z.eqb_neq; lia).
      reflexivity.
    + apply IH. lia.
Qed.

(** The loop only ever appends to the text it has. *)
Lemma Duration_loop_appends (tbl : list (Z * string)) (i last d : Z)
  (s : string) :
  exists rest, Duration_loop tbl i last d s = s +:+ rest.
Proof.
  revert i last d s.
  induction tbl as [|[unit_d unit_s] tbl IH]; intros i last d s.
  - exists "". rewrite append_nil_r. reflexivity.
  - simpl. destruct (unit_d <=? d).
    + destruct (negb (i - 1 =? last)).
      * exists "". rewrite append_nil_r. reflexivity.
      * destruct (5 <=? _); [eauto|].
        destruct (IH (i + 1) i (Z.rem d unit_d)
                    (s +:+ Go.Sprintf_d unit_s (Z.quot d unit_d)))
          as [rest ->].
        rewrite append_assoc. eauto.
    + apply IH.
Qed.

Lemma Duration_from_a_minute (d : Z) :
  time.Minute <= d -> Duration d = Duration_loop durations 0 (-1) d "".
Proof.
  intros Hd. unfold Duration.
  assert (Hmin : time.Minute = 60000000000) by reflexivity.
  rewrite Hmin in Hd.
  replace (d <? time.Microsecond) with false
    by (symmetry; apply Z.ltb_ge; vm_compute (time.Microsecond); lia).
  replace (d <? time.Millisecond) with false
    by (symmetry; apply Z.ltb_ge; vm_compute (time.Millisecond); lia).
  replace (d <? time.Second) with false
    by (symmetry; apply Z.ltb_ge; vm_compute (time.Second); lia).
  replace (d <? time.Minute) with false
    by (symmetry; apply Z.ltb_ge; rewrite Hmin; lia).
  reflexivity.
Qed.

(** X1: a negative duration falls into the first branch, whatever its
    size: it is rendered as its signed count of nanoseconds, a minus sign
    and the decimal numeral of its absolute value, followed by "ns". *)
Theorem Duration_negative (d : Z) :
  d < 0 ->
  Duration d = "-" +:+ Go.itoa (- d) +:+ "ns"
  /\ atoi (Go.itoa d) = Some d.
Proof.
  intros Hd. split; [|apply atoi_itoa].
  unfold Duration.
  replace (d <? time.Microsecond) with true
    by (symmetry; apply Z.ltb_lt; vm_compute (time.Microsecond); lia).
  destruct d as [|p|p]; try lia. reflexivity.
Qed.

(** X2: from 365 days on the text starts with the count of years and the
    letter y, so it is not empty; from a minute up to 365 days it is
    empty.  Among the durations of at least a minute the empty text tells
    exactly those below 365 days. *)
Theorem Duration_starts_with_years (d : Z) :
  time.Minute <= d ->
  (Duration d = "" <-> d < time.Hour * 24 * 365)
  /\ (time.Hour * 24 * 365 <= d ->
      exists rest,
        Duration d = Go.itoa (d / (time.Hour * 24 * 365)) +:+ "y" +:+ rest).
Proof.
  intros Hd. rewrite Duration_from_a_minute by exact Hd.
  assert (Hyear :
    time.Hour * 24 * 365 <= d ->
    exists rest,
      Duration_loop durations 0 (-1) d ""
      = Go.itoa (d / (time.Hour * 24 * 365)) +:+ "y" +:+ rest).
  { intros Hy. unfold durations.
    rewrite Duration_loop_take by (try apply Z.leb_le; auto).
    rewrite append_nil_l.
    change (Go.Sprintf_d "%dy" ?q) with (Go.itoa q +:+ "y").
    rewrite Z.quot_div_nonneg
      by (vm_compute (time.Hour * 24 * 365) in *; lia).
    destruct (5 <=? _).
    - exists "". rewrite append_nil_r. reflexivity.
    - match goal with
      | |- context [Duration_loop ?t ?i ?l ?x ?s] =>
          destruct (Duration_loop_appends t i l x s) as [rest ->]
      end.
      rewrite append_assoc. eauto. }
  split; [|exact Hyear].
  destruct (Z.lt_ge_cases d (time.Hour * 24 * 365)) as [Hlt|Hge].
  - split; [intros _; exact Hlt|]. intros _. unfold durations.
    rewrite Duration_loop_skip by (apply Z.leb_gt; exact Hlt).
    apply Duration_loop_no_start. lia.
  - split; [|intros Hlt; exfalso; lia].
    destruct (Hyear Hge) as [rest ->]. intros E.
    apply append_eq_nil in E as [E _].
    exfalso. revert E. unfold Go.itoa.
    destruct (Z.to_int _) as [u|u]; simpl; [|discriminate].
    unfold NilZero.string_of_uint. destruct u; simpl; discriminate.
Qed.

(** X3: the loop stops instead of skipping a unit: when what is left
    after the years is less than a month of 30 days, the text is the
    count of years and the letter y and nothing else, however many weeks,
    days or hours are left. *)
Theorem Duration_stops_at_a_gap (d : Z) :
  time.Hour * 24 * 365 <= d ->
  d mod (time.Hour * 24 * 365) < time.Hour * 24 * 30 ->
  Duration d = Go.itoa (d / (time.Hour * 24 * 365)) +:+ "y".
Proof.
  intros Hy Hm.
  assert (Hyr : time.Hour * 24 * 365 = 31536000000000000) by reflexivity.
  rewrite Duration_from_a_minute
    by (rewrite Hyr in Hy; change time.Minute with 60000000000; lia).
  unfold durations.
  rewrite Duration_loop_take by (try apply Z.leb_le; auto).
  rewrite append_nil_l.
  change (Go.Sprintf_d "%dy" ?q) with (Go.itoa q +:+ "y").
  rewrite Z.quot_div_nonneg, Z.rem_mod_nonneg by (rewrite Hyr in *; lia).
  destruct (5 <=? _); [reflexivity|].
  rewrite Duration_loop_skip by (apply Z.leb_gt; exact Hm).
  apply Duration_loop_gap. lia.
Qed.

(** While the text is short of five bytes and the rest is below [bound],
    the loop over a chain of units ends with at most seven bytes. *)
Lemma Duration_loop_len (tbl : list (Z * string)) (i last d bound : Z)
  (s : string) :
  0 <= d < bound -> Go.len s <= 4 -> unit_chain bound tbl ->
  Go.len (Duration_loop tbl i last d s) <= 7.
Proof.
  revert i last d bound s.
  induction tbl as [|[unit_d unit_s] tbl IH]; intros i last d bound s Hd Hs Hc.
  - simpl. lia.
  - destruct Hc as (Hu & Hb & [c Hf] & Hc). simpl.
    destruct (Z.leb_spec unit_d d) as [Hle|Hgt].
    + destruct (negb (i - 1 =? last)); [lia|].
      assert (Hq : 0 <= Z.quot d unit_d < 100).
      { rewrite Z.quot_div_nonneg by lia. split.
        - apply Z.div_pos; lia.
        - apply Z.div_lt_upper_bound; lia. }
      assert (Hlen :
        Go.len (s +:+ Go.Sprintf_d unit_s (Z.quot d unit_d)) <= 7).
      { rewrite Hf. unfold Go.len in *. rewrite !length_append. simpl.
        destruct (itoa_len_small (Z.quot d unit_d)) as [_ H2]; [lia|].
        unfold Go.len in H2. lia. }
      destruct (Z.leb_spec 5
                  (Go.len (s +:+ Go.Sprintf_d unit_s (Z.quot d unit_d))))
        as [H5|H5]; [exact Hlen|].
      apply (IH _ _ _ unit_d); [|lia|exact Hc].
      rewrite Z.rem_mod_nonneg by lia. apply Z.mod_pos_bound. lia.
    + apply (IH _ _ _ unit_d); [lia|exact Hs|exact Hc].
Qed.

(** X4: for every 64-bit duration of at least a minute the text has at
    most seven bytes: up to three digits of years, then units of at most
    two digits until five bytes are reached. *)
Theorem Duration_at_most_seven_bytes (d : Z) :
  time.Minute <= d < 2 ^ 63 -> Go.len (Duration d) <= 7.
Proof.
  intros [Hlo Hhi]. rewrite Duration_from_a_minute by exact Hlo.
  assert (Hmin : time.Minute = 60000000000) by reflexivity.
  assert (Hyr : time.Hour * 24 * 365 = 31536000000000000) by reflexivity.
  rewrite Hmin in Hlo.
  unfold durations.
  destruct (Z.leb_spec (time.Hour * 24 * 365) d) as [Hy|Hy].
  - rewrite Duration_loop_take by (try apply Z.leb_le; auto).
    rewrite append_nil_l.
    change (Go.Sprintf_d "%dy" ?q) with (Go.itoa q +:+ "y").
    rewrite Hyr in *.
    assert (Hq : 0 <= Z.quot d 31536000000000000 < 1000).
    { rewrite Z.quot_div_nonneg by lia. split.
      - apply Z.div_pos; lia.
      - apply Z.div_lt_upper_bound; lia. }
    assert (Hlen : Go.len (Go.itoa (Z.quot d 31536000000000000) +:+ "y") <= 4).
    { unfold Go.len in *. rewrite length_append. simpl.
      destruct (itoa_len_small (Z.quot d 31536000000000000)) as [H3 _];
        [lia|].
      unfold Go.len in H3. lia. }
    destruct (Z.leb_spec 5
                (Go.len (Go.itoa (Z.quot d 31536000000000000) +:+ "y")))
      as [H5|H5]; [lia|].
    apply (Duration_loop_len _ _ _ _ 31536000000000000).
    + rewrite Z.rem_mod_nonneg by lia. apply Z.mod_pos_bound. lia.
    + exact Hlen.
    + simpl.
      repeat match goal with
             | |- _ /\ _ => split
             | |- exists c, _ => eexists; intros q; reflexivity
             | |- True => exact I
             | |- _ < _ => reflexivity
             | |- _ <= _ => vm_compute; intros E; discriminate E
             end.
  - rewrite Duration_loop_skip by (apply Z.leb_gt; exact Hy).
    rewrite Duration_loop_no_start by lia. unfold Go.len. simpl. lia.
Qed.

End DurationMore.

Lemma Duration_negative_witness :
  @Duration Sample.plain (-5000000000) = "-5000000000ns"
  /\ atoi (Go.itoa (-5000000000)) = Some (-5000000000).
Proof.
  apply (@Duration_negative Sample.plain (-5000000000)).
  vm_compute. reflexivity.
Defined.

Lemma Duration_starts_with_years_witness :
  (@Duration Sample.plain (time.Hour * 24 * 400) = ""
   <-> time.Hour * 24 * 400 < time.Hour * 24 * 365)
  /\ (time.Hour * 24 * 365 <= time.Hour * 24 * 400 ->
      exists rest,
        @Duration Sample.plain (time.Hour * 24 * 400)
        = Go.itoa (time.Hour * 24 * 400 / (time.Hour * 24 * 365))
          +:+ "y" +:+ rest).
Proof.
  apply (@Duration_starts_with_years Sample.plain (time.Hour * 24 * 400)).
  vm_compute. intros E. discriminate E.
Defined.

Lemma Duration_stops_at_a_gap_witness :
  @Duration Sample.plain (time.Hour * 24 * (2 * 365 + 29)) = "2y".
Proof.
  apply (@Duration_stops_at_a_gap Sample.plain
           (time.Hour * 24 * (2 * 365 + 29))).
  - vm_compute. intros E. discriminate E.
  - vm_compute. reflexivity.
Defined.

Lemma Duration_at_most_seven_bytes_witness :
  Go.len (@Duration Sample.plain (time.Hour * 24 * (100 * 365 + 12 * 30)))
  <= 7.
Proof.
  apply (@Duration_at_most_seven_bytes Sample.plain
           (time.Hour * 24 * (100 * 365 + 12 * 30))).
  vm_compute. split; [intros E; discriminate E | reflexivity].
Defined.

(** A hundred years and twelve months of thirty days take all seven. *)
Example Duration_seven_bytes :
  @Duration Sample.plain (time.Hour * 24 * (100 * 365 + 12 * 30)) = "100y12m".
Proof. reflexivity. Qed.

(** ** Key colors, for every key *)

Lemma crc32_update_nonneg (crc : Z) (b : ascii) :
  0 <= crc -> 0 <= Go.crc32_update crc b.
Proof.
  intros Hc. unfold Go.crc32_update.
  assert (H0 : 0 <= Z.lxor crc (Z.of_N (N_of_ascii b))).
  { apply Z.lxor_nonneg. split; intros _; [lia | exact Hc]. }
  revert H0. generalize (Z.lxor crc (Z.of_N (N_of_ascii b))) as c.
  generalize 8%nat as n.
  induction n as [|n IH]; intros c Hc0; [exact Hc0|].
  rewrite Nat.iter_succ. specialize (IH c Hc0). revert IH.
  generalize (Nat.iter n
    (fun c => if Z.testbit c 0 then Z.lxor (Z.shiftr c 1) Go.IEEE
              else Z.shiftr c 1) c) as x.
  intros x Hx. destruct (Z.testbit x 0).
  - apply Z.lxor_nonneg. split; intros _.
    + unfold Go.IEEE. lia.
    + apply Z.shiftr_nonneg. exact Hx.
  - apply Z.shiftr_nonneg. exact Hx.
Qed.

Lemma ChecksumIEEE_nonneg (data : string) : 0 <= Go.ChecksumIEEE data.
Proof.
  unfold Go.ChecksumIEEE.
  apply Z.lxor_nonneg. split; intros _; [lia|].
  assert (H : 0 <= 0xffffffff) by lia. revert H.
  generalize 0xffffffff as crc.
  induction (list_ascii_of_string data) as [|b l IH]; intros crc Hc; simpl.
  - exact Hc.
  - apply IH. apply crc32_update_nonneg. exact Hc.
Qed.

Lemma Interim_mapColor_band (v : Z) : 64 <= Interim.mapColor (byte v) <= 191.
Proof.
  unfold Interim.mapColor, byte.
  assert (H : 0 <= v mod 2 ^ 8 < 2 ^ 8) by (apply Z.mod_pos_bound; lia).
  change (2 ^ 8) with 256 in *.
  assert (0 <= v mod 256 / 2 <= 127).
  { split; [apply Z.div_pos; lia|].
    apply Z.lt_succ_r. apply Z.div_lt_upper_bound; lia. }
  rewrite Z.mod_small by lia. lia.
Qed.

(** X5: a key other than "error" gets a 24-bit foreground color whose
    three channels, taken from the three upper bytes of the CRC-32 of the
    key, each lie in the band from 105 to 232; so no key is painted
    near-black or near-white, and none in a level color. *)
Theorem key_colors_stay_in_band (key : string) :
  key <> "error" ->
  exists r g b,
    getKeyColor key = [38; 2; r; g; b]
    /\ r = mapColor (Z.shiftr (Go.ChecksumIEEE key) 24)
    /\ g = mapColor (Z.shiftr (Go.ChecksumIEEE key) 16)
    /\ b = mapColor (Z.shiftr (Go.ChecksumIEEE key) 8)
    /\ 105 <= r <= 232 /\ 105 <= g <= 232 /\ 105 <= b <= 232
    /\ forall l, getKeyColor key <> LevelColors l.
Proof.
  intros Hk. unfold getKeyColor.
  destruct (String.eqb_spec key "error") as [->|_]; [contradiction|].
  eexists _, _, _. split; [reflexivity|].
  repeat split; try apply mapColor_band.
  intros l. destruct l; discriminate.
Qed.

(** X6: in the revision in between, a key other than "error" gets a
    24-bit color with each channel in the band from 64 to 191. *)
Theorem Interim_key_colors_stay_in_band (key : string) :
  key <> "error" ->
  exists r g b,
    Interim.getKeyColor key = [38; 2; r; g; b]
    /\ 64 <= r <= 191 /\ 64 <= g <= 191 /\ 64 <= b <= 191.
Proof.
  intros Hk. unfold Interim.getKeyColor.
  destruct (String.eqb_spec key "error") as [->|_]; [contradiction|].
  eexists _, _, _. split; [reflexivity|].
  repeat split; apply Interim_mapColor_band.
Qed.

(** X7: in the palette revision every key, "error" included, gets one of
    the twelve colors of the palette: the index, the CRC-32 of the key
    modulo the length of the palette, never leaves the array. *)
Theorem Palette_key_color_in_palette (key : string) :
  In (Palette.getKeyColor key) Palette.KeyColors
  /\ Palette.getKeyColor key
     = Palette.KeyColors_at
         (if String.eqb key "error" then 6 else Go.ChecksumIEEE key mod 12).
Proof.
  pose proof (ChecksumIEEE_nonneg key) as H0.
  assert (Hidx :
    uint32 (Z.rem (Go.ChecksumIEEE key)
              (uint32 (Z.of_nat (length Palette.KeyColors))))
    = Go.ChecksumIEEE key mod 12).
  { change (uint32 (Z.of_nat (length Palette.KeyColors))) with 12.
    rewrite Z.rem_mod_nonneg by lia.
    unfold uint32. apply Z.mod_small.
    pose proof (Z.mod_pos_bound (Go.ChecksumIEEE key) 12). lia. }
  unfold Palette.getKeyColor. rewrite Hidx. split.
  - destruct (String.eqb key "error").
    + vm_compute. tauto.
    + unfold Palette.KeyColors_at. apply nth_In.
      change (length Palette.KeyColors) with 12%nat.
      pose proof (Z.mod_pos_bound (Go.ChecksumIEEE key) 12). lia.
  - destruct (String.eqb key "error"); reflexivity.
Qed.

Lemma key_colors_stay_in_band_witness :
  exists r g b,
    getKeyColor "name" = [38; 2; r; g; b]
    /\ r = mapColor (Z.shiftr (Go.ChecksumIEEE "name") 24)
    /\ g = mapColor (Z.shiftr (Go.ChecksumIEEE "name") 16)
    /\ b = mapColor (Z.shiftr (Go.ChecksumIEEE "name") 8)
    /\ 105 <= r <= 232 /\ 105 <= g <= 232 /\ 105 <= b <= 232
    /\ forall l, getKeyColor "name" <> LevelColors l.
Proof.
  apply (key_colors_stay_in_band "name"). intros E. discriminate E.
Defined.

Lemma Interim_key_colors_stay_in_band_witness :
  exists r g b,
    Interim.getKeyColor "name" = [38; 2; r; g; b]
    /\ 64 <= r <= 191 /\ 64 <= g <= 191 /\ 64 <= b <= 191.
Proof.
  apply (Interim_key_colors_stay_in_band "name"). intros E. discriminate E.
Defined.

(** ** The classifier on strings *)

Lemma digits_head (s : string) :
  digits s -> exists c s', s = String c s' /\ is_digit c = true.
Proof. intros H. destruct H; eauto. Qed.

Lemma NumericLooking_head (s : string) :
  NumericLooking s -> exists c s', s = String c s' /\ is_digit c = true.
Proof.
  intros (whole & frac & sp & u & -> & Hw & _).
  apply digits_head in Hw as (c & w' & -> & Hc).
  rewrite !append_cons. eauto.
Qed.

(** X8: a string or byte sequence that does not start with a decimal
    digit classifies LEFT: the empty one, and any that starts with a
    sign, a dot, a space or a letter, such as "-5", "+1", ".5" or
    " 10". *)
Theorem classifier_needs_leading_digit (s : string) :
  (forall c s', s = String c s' -> is_digit c = false) ->
  isTypeRightAlignable (VString s) = false
  /\ isTypeRightAlignable (VBytes s) = false.
Proof.
  intros Hs.
  assert (H : Go.MatchString reNumType s = false).
  { destruct (Go.MatchString reNumType s) eqn:E; [|reflexivity].
    apply PatternFacts.reNumType_NumericLooking in E.
    apply NumericLooking_head in E as (c & s' & -> & Hc).
    rewrite (Hs c s' eq_refl) in Hc. discriminate Hc. }
  split; exact H.
Qed.

Lemma classifier_needs_leading_digit_witness :
  isTypeRightAlignable (VString "-5") = false
  /\ isTypeRightAlignable (VBytes "-5") = false.
Proof.
  apply (classifier_needs_leading_digit "-5").
  intros c s' E. injection E as <- _. reflexivity.
Defined.

(** X9: a string of decimal digits classifies RIGHT whatever its length,
    and so it does with a dot and further digits after it, and with one
    trailing space after either. *)
Theorem numerals_classify_right (w f : string) :
  digits w -> digits f ->
  isTypeRightAlignable (VString w) = true
  /\ isTypeRightAlignable (VString (w +:+ "." +:+ f)) = true
  /\ isTypeRightAlignable (VString (w +:+ " ")) = true
  /\ isTypeRightAlignable (VString (w +:+ "." +:+ f +:+ " ")) = true
  /\ isTypeRightAlignable (VBytes w) = true.
Proof.
  intros Hw Hf.
  assert (H1 : NumericLooking w).
  { exists w, "", "", "". rewrite !append_nil_r. auto 10. }
  assert (H2 : NumericLooking (w +:+ "." +:+ f)).
  { exists w, ("." +:+ f), "", "". rewrite !append_nil_r.
    split; [reflexivity|]. split; [exact Hw|]. split; [right; eauto|]. auto. }
  assert (H3 : NumericLooking (w +:+ " ")).
  { exists w, "", " ", "". split; [reflexivity|]. auto 10. }
  assert (H4 : NumericLooking (w +:+ "." +:+ f +:+ " ")).
  { exists w, ("." +:+ f), " ", "".
    split; [rewrite !append_assoc; reflexivity|].
    split; [exact Hw|]. split; [right; eauto|]. auto. }
  repeat split; simpl; apply PatternFacts.reNumType_NumericLooking;
    assumption.
Qed.

Lemma numerals_classify_right_witness :
  isTypeRightAlignable (VString "1234567890123456789012345") = true
  /\ isTypeRightAlignable
       (VString ("1234567890123456789012345" +:+ "." +:+ "50")) = true
  /\ isTypeRightAlignable (VString ("1234567890123456789012345" +:+ " "))
     = true
  /\ isTypeRightAlignable
       (VString ("1234567890123456789012345" +:+ "." +:+ "50" +:+ " "))
     = true
  /\ isTypeRightAlignable (VBytes "1234567890123456789012345") = true.
Proof.
  apply (numerals_classify_right "1234567890123456789012345" "50");
    repeat (first [apply digits_one | apply digits_more]; [reflexivity|..]).
Defined.

(** ** More on the bookkeeping of [writeNameValue] *)

Lemma Repeat_len (n : Z) : Go.len (Go.Repeat " " n) = Z.max 0 n.
Proof.
  unfold Go.Repeat, Go.len.
  assert (H : forall k : nat,
            String.length (Nat.iter k (fun acc => " " +:+ acc) "") = k).
  { induction k as [|k IH]; [reflexivity|].
    rewrite Nat.iter_succ, length_append, IH. reflexivity. }
  rewrite H. lia.
Qed.

Section TrackerMore.
Context {ext : Externals} {W : Type}.
Implicit Types (h : @Handler W) (e : Entry) (c : call) (cs : list call).

(** X10: on a handler that started fresh, the statistics of every name
    keep the number of its observations in [Count] and never hold more
    votes for the right than observations.  (Stated below the wrap-around
    of the 64-bit counter.) *)
Theorem votes_never_exceed_samples (w : W) (name : string) cs :
  sampleCount name cs < 2 ^ 63 ->
  Count (stat (run_calls (New w) cs) name)
  = Z.of_nat (length (List.filter (observes name) cs))
  /\ 0 <= RightAlignable (stat (run_calls (New w) cs) name)
       <= Count (stat (run_calls (New w) cs) name).
Proof.
  intros Hn.
  destruct (counts_after_calls w name cs Hn) as [Hc Hr].
  rewrite Hc, Hr. split; [reflexivity|].
  apply rightVotes_le_sampleCount.
Qed.

(** X11: a call of [writeNameValue] for one name leaves the statistics
    of every other name, the sink, the timestamp layout and the bytes
    already in the buffer as they were; it appends exactly one write,
    for that name, and reports no error. *)
Theorem writeNameValue_touches_one_name h e (name other : string) (i : Z)
  (names : list string) :
  other <> name ->
  lengths (fst (writeNameValue h e name i names)) !! other
  = lengths h !! other
  /\ snd (writeNameValue h e name i names) = None
  /\ Writer (fst (writeNameValue h e name i names)) = Writer h
  /\ Timestamp (fst (writeNameValue h e name i names)) = Timestamp h
  /\ off (buf (fst (writeNameValue h e name i names))) = off (buf h)
  /\ exists fw,
       written (buf (fst (writeNameValue h e name i names)))
       = (written (buf h) ++ [fw])%list
       /\ field_name fw = Some name.
Proof.
  intros Hne. rewrite writeNameValue_eq. cbv zeta. simpl.
  split; [apply lookup_insert_ne; congruence|].
  repeat split. eexists. split; [reflexivity|].
  destruct (Z.quot _ 2 <? _); reflexivity.
Qed.

(** X12: the first time a name is seen (no entry in the map), with a
    display width that is not negative, its statistics become that width,
    one sample and the vote of the value, and the side is the classifier's
    verdict on the value: a value taken for RIGHT is handed to the format
    with its own display width as the width, a value taken for LEFT is
    written with an empty pad after it. *)
Theorem first_sighting h e (name : string) (i : Z) (names : list string) :
  lengths h !! name = None ->
  0 <= StringWidth (Sprint_v (shown (Get (Fields e) name))) ->
  stat (fst (writeNameValue h e name i names)) name
  = mkKeyStat (StringWidth (Sprint_v (shown (Get (Fields e) name)))) 1
      (if isTypeRightAlignable (shown (Get (Fields e) name)) then 1 else 0)
  /\ last (written (buf (fst (writeNameValue h e name i names))))
     = Some
         (if isTypeRightAlignable (shown (Get (Fields e) name))
          then FRight (getKeyColor name) name
                 (StringWidth (Sprint_v (shown (Get (Fields e) name))))
                 (shown (Get (Fields e) name))
          else FLeft (getKeyColor name) name (shown (Get (Fields e) name))
                 "").
Proof.
  intros Hnew Hsw.
  pose (c := mkCall e name i names).
  change (fst (writeNameValue h e name i names)) with (do_call h c).
  change (shown (Get (Fields e) name)) with (call_value c).
  change (StringWidth (Sprint_v (call_value c))) with (call_width c) in *.
  assert (Hst :
    stat (do_call h c) name
    = mkKeyStat (call_width c) 1
        (if isTypeRightAlignable (call_value c) then 1 else 0)).
  { change name with (call_name c). rewrite do_call_stat. cbv zeta.
    unfold stat. change (call_name c) with name. rewrite Hnew. simpl.
    rewrite max_is_Zmax, Z.max_r by exact Hsw.
    destruct (_ <? _), (isTypeRightAlignable _); reflexivity. }
  split; [exact Hst|].
  rewrite do_call_last. cbv zeta. change (call_name c) with name.
  rewrite Hst. simpl. rewrite Z.ltb_irrefl. simpl.
  destruct (isTypeRightAlignable (call_value c)); reflexivity.
Qed.

(** X13: with widths that fit a 64-bit integer, a left-aligned value is
    followed by a pad of exactly as many spaces as its display width is
    short of the stored width of the name, so that the value and the pad
    together take the stored width in columns; at the last index of the
    names it is followed by no pad at all.  A right-aligned value gets no
    pad; the stored width is the width given to its format. *)
Theorem left_padding_fills_the_column h e (name : string) (i : Z)
  (names : list string) :
  0 <= StringWidth (Sprint_v (shown (Get (Fields e) name))) < 2 ^ 63 ->
  MaxLength (stat h name) < 2 ^ 63 ->
  exists fw,
    last (written (buf (fst (writeNameValue h e name i names)))) = Some fw
    /\ match fw with
       | FLeft _ _ val pad =>
           val = shown (Get (Fields e) name)
           /\ pad
              = Go.Repeat " "
                  (if Go.int_add i 1 =? Z.of_nat (length names) then 0
                   else MaxLength
                          (stat (fst (writeNameValue h e name i names)) name)
                        - StringWidth (Sprint_v val))
           /\ StringWidth (Sprint_v val) + Go.len pad
              = (if Go.int_add i 1 =? Z.of_nat (length names)
                 then StringWidth (Sprint_v val)
                 else MaxLength
                        (stat (fst (writeNameValue h e name i names)) name))
       | FRight _ _ width val =>
           val = shown (Get (Fields e) name)
           /\ width
              = MaxLength (stat (fst (writeNameValue h e name i names)) name)
       | _ => False
       end.
Proof.
  intros Hsw HM.
  pose (c := mkCall e name i names).
  change (fst (writeNameValue h e name i names)) with (do_call h c).
  change (shown (Get (Fields e) name)) with (call_value c) in *.
  change (StringWidth (Sprint_v (call_value c))) with (call_width c) in *.
  assert (Hge :
    call_width c <= MaxLength (stat (do_call h c) name) < 2 ^ 63).
  { change name with (call_name c). rewrite do_call_stat. cbv zeta. simpl.
    change (call_name c) with name. rewrite max_is_Zmax.
    destruct (_ <? _); lia. }
  rewrite do_call_last. cbv zeta. change (call_name c) with name.
  eexists. split; [reflexivity|].
  destruct (Z.quot _ 2 <? _); [split; reflexivity|].
  change (call_index c) with i. change (call_names c) with names.
  change (StringWidth (Sprint_v (call_value c))) with (call_width c).
  split; [reflexivity|].
  destruct (Go.int_add i 1 =? Z.of_nat (length names)).
  - rewrite andb_false_r. split; [reflexivity|].
    unfold Go.len. simpl. lia.
  - rewrite andb_true_r.
    destruct (Z.ltb_spec (call_width c)
                (MaxLength (stat (do_call h c) name))) as [Hlt|Hnlt].
    + unfold Go.int_sub. rewrite wrap64_small by lia.
      split; [reflexivity|]. rewrite Repeat_len. lia.
    + replace (MaxLength (stat (do_call h c) name) - call_width c) with 0
        by lia.
      split; [reflexivity|]. unfold Go.len. simpl. lia.
Qed.

End TrackerMore.

Lemma votes_never_exceed_samples_witness :
  Count
    (stat
       (run_calls (ext := Sample.plain) (New ([] : list string))
          [observation (VInt 1); observation (VString "a");
           observation (VInt 2)])
       "f")
  = Z.of_nat
      (length
         (List.filter (observes "f")
            [observation (VInt 1); observation (VString "a");
             observation (VInt 2)]))
  /\ 0 <= RightAlignable
            (stat
               (run_calls (ext := Sample.plain) (New ([] : list string))
                  [observation (VInt 1); observation (VString "a");
                   observation (VInt 2)])
               "f")
       <= Count
            (stat
               (run_calls (ext := Sample.plain) (New ([] : list string))
                  [observation (VInt 1); observation (VString "a");
                   observation (VInt 2)])
               "f").
Proof.
  apply (votes_never_exceed_samples (ext := Sample.plain)
           ([] : list string) "f").
  vm_compute. reflexivity.
Defined.

Lemma writeNameValue_touches_one_name_witness :
  lengths
    (fst (writeNameValue (ext := Sample.plain) (New ([] : list string))
            Sample.starting "count" 0 ["count"; "name"]))
  !! "name"
  = None.
Proof.
  destruct
    (writeNameValue_touches_one_name (ext := Sample.plain)
       (New ([] : list string)) Sample.starting "count" "name" 0
       ["count"; "name"])
    as [H _].
  - intros E. discriminate E.
  - rewrite H. reflexivity.
Defined.

Lemma first_sighting_witness :
  stat
    (fst (writeNameValue (ext := Sample.plain) (New ([] : list string))
            Sample.starting "name" 1 ["count"; "name"]))
    "name"
  = mkKeyStat 8 1 0.
Proof.
  destruct
    (first_sighting (ext := Sample.plain) (New ([] : list string))
       Sample.starting "name" 1 ["count"; "name"])
    as [H _].
  - reflexivity.
  - vm_compute. intros E. discriminate E.
  - rewrite H. vm_compute. reflexivity.
Defined.

Lemma left_padding_fills_the_column_witness :
  last
    (written
       (buf
          (fst (writeNameValue (ext := Sample.plain)
                  (fst (writeNameValue (ext := Sample.plain)
                          (New ([] : list string)) Sample.starting "name" 0
                          ["name"; "count"]))
                  (Sample.entry InfoLevel "" [("name", VString "w-2")])
                  "name" 0 ["name"; "count"]))))
  = Some (FLeft (getKeyColor "name") "name" (VString "w-2") "     ").
Proof.
  destruct
    (left_padding_fills_the_column (ext := Sample.plain)
       (fst (writeNameValue (ext := Sample.plain)
               (New ([] : list string)) Sample.starting "name" 0
               ["name"; "count"]))
       (Sample.entry InfoLevel "" [("name", VString "w-2")])
       "name" 0 ["name"; "count"])
    as (fw & Hl & Hc).
  - vm_compute. split; [intros E; discriminate E | reflexivity].
  - vm_compute. reflexivity.
  - rewrite Hl. vm_compute in Hl. injection Hl as <-. reflexivity.
Defined.

(** ** More on the line and on what a record leaves in the handler *)

(** X14: the names come out in the same order whatever order they went
    in, as long as they are distinct; in particular sorting what is
    sorted changes nothing.  (The keys of a Go map arrive in no fixed
    order.) *)
Theorem sortNames_ignores_input_order (e : Entry)
  (names names' : list string) :
  NoDup names -> Permutation names names' ->
  sortNames e names = sortNames e names'
  /\ sortNames e (sortNames e names) = sortNames e names.
Proof.
  intros Hnd Hp.
  assert (Hs := sortNames_sorted e names Hnd).
  split.
  - apply (Slice_unique (names_less e)).
    + apply names_less_asym.
    + apply names_less_trans.
    + apply names_less_total.
    + rewrite <- Hp. exact Hnd.
    + rewrite sortNames_perm. exact Hp.
    + exact Hs.
  - symmetry. apply (Slice_unique (names_less e)).
    + apply names_less_asym.
    + apply names_less_trans.
    + apply names_less_total.
    + rewrite sortNames_perm. exact Hnd.
    + reflexivity.
    + exact Hs.
Qed.

Lemma sortNames_ignores_input_order_witness :
  sortNames Sample.starting ["source"; "name"; "count"]
  = sortNames Sample.starting ["count"; "source"; "name"]
  /\ sortNames Sample.starting
       (sortNames Sample.starting ["source"; "name"; "count"])
     = sortNames Sample.starting ["source"; "name"; "count"].
Proof.
  apply (sortNames_ignores_input_order Sample.starting
           ["source"; "name"; "count"] ["count"; "source"; "name"]).
  - apply (bool_decide_unpack _). vm_compute. exact I.
  - apply perm_trans with ["name"; "source"; "count"].
    + apply perm_swap.
    + apply perm_trans with ["name"; "count"; "source"].
      * apply perm_skip. apply perm_swap.
      * apply perm_trans with ["count"; "name"; "source"].
        -- apply perm_swap.
        -- apply perm_skip. apply perm_swap.
Defined.

Section LineMore.
Context {ext : Externals} {W : Type} {sink : Go.Writer W}.
Implicit Types (h : @Handler W) (e : Entry).

(** X15: the line of an entry is the header in the color and with the
    symbol of its level, then the message unless it is empty, then one
    write for every sorted name other than "source", then one newline;
    whatever was left in the buffer before is dropped and has no part in
    it. *)
Theorem line_shape h e :
  (exists ws,
     line h e
     = (FHeader (LevelColors (Level_ e))
          (Time_Format (Timestamp_ e) (Timestamp h))
          (LevelSymbol (Level_ e))
        :: (if String.eqb (Message e) "" then []
            else [FMessage (Message e)])
        ++ ws ++ [FNewline])%list
     /\ map field_name ws
        = map Some
            (List.filter (fun name => negb (String.eqb name "source"))
               (sortNames e (Names (Fields e)))))
  /\ forall b : Buffer,
       line
         {| Writer := Writer h; Timestamp := Timestamp h;
            lengths := lengths h; buf := b |} e
       = line h e.
Proof.
  split.
  - unfold line. destruct (fillBuffer_eq h e) as (ws & lens & -> & Hws).
    exists ws. split; [reflexivity | exact Hws].
  - intros b. destruct h. reflexivity.
Qed.

(** X16: every field of the entry other than "source" is written exactly
    once: the names of the line have no repetition, and a name is among
    them exactly when the entry has a field of that name and the name is
    not "source". *)
Theorem every_field_once h e :
  NoDup (field_names (line h e))
  /\ forall name,
       In name (field_names (line h e))
       <-> is_Some (Fields e !! name) /\ name <> "source".
Proof.
  rewrite line_field_names. split.
  - apply NoDup_ListNoDup. apply List.NoDup_filter. apply NoDup_ListNoDup.
    rewrite sortNames_perm. apply Names_NoDup.
  - intros name. rewrite List.filter_In, <- list_elem_of_In.
    rewrite sortNames_perm, Names_keys. unfold not_source.
    rewrite negb_true_iff, String.eqb_neq. reflexivity.
Qed.

Lemma writeFields_lengths_out h e (i : Z) (rest names : list string)
  (name : string) :
  (~ In name rest \/ name = "source") ->
  lengths (fst (writeFields h e i rest names)) !! name = lengths h !! name.
Proof.
  revert h i. induction rest as [|n rest IH]; intros h i Hout; [reflexivity|].
  simpl. destruct (String.eqb_spec n "source") as [->|Hn].
  - apply IH. destruct Hout as [Hout|Hout]; [left|right; exact Hout].
    intros Hin. apply Hout. right. exact Hin.
  - rewrite writeNameValue_eq. cbv zeta.
    rewrite IH.
    + simpl. apply lookup_insert_ne.
      destruct Hout as [Hout| ->]; [|exact Hn].
      intros ->. apply Hout. left. reflexivity.
    + destruct Hout as [Hout|Hout]; [left|right; exact Hout].
      intros Hin. apply Hout. right. exact Hin.
Qed.

Lemma stat_of_lengths (h h' : @Handler W) (name : string) :
  lengths h' !! name = lengths h !! name -> stat h' name = stat h name.
Proof. unfold stat. intros ->. reflexivity. Qed.

Lemma do_call_stat_any h h' e (name : string) (i i' : Z)
  (names names' : list string) :
  stat h' name = stat h name ->
  stat (do_call h' (mkCall e name i names)) name
  = stat (do_call h (mkCall e name i' names')) name.
Proof.
  intros E.
  rewrite (do_call_stat h' (mkCall e name i names)).
  rewrite (do_call_stat h (mkCall e name i' names')).
  cbv zeta. simpl. rewrite E. reflexivity.
Qed.

Lemma writeFields_stat_in h e (i : Z) (rest names : list string)
  (name : string) :
  List.NoDup rest -> In name rest -> name <> "source" ->
  stat (fst (writeFields h e i rest names)) name
  = stat (do_call h (mkCall e name 0 [])) name.
Proof.
  revert h i. induction rest as [|n rest IH]; intros h i Hnd Hin Hs.
  - destruct Hin.
  - apply List.NoDup_cons_iff in Hnd as [Hn Hnd]. simpl.
    destruct (String.eqb_spec n "source") as [->|Hns].
    + apply IH; [exact Hnd | | exact Hs].
      destruct Hin as [E|Hin]; [congruence | exact Hin].
    + destruct (writeNameValue h e n i names) as [h1 err] eqn:Ew.
      assert (Eh1 : h1 = do_call h (mkCall e n i names))
        by (unfold do_call; simpl; rewrite Ew; reflexivity).
      assert (err = None) as ->
        by (rewrite writeNameValue_eq in Ew; cbv zeta in Ew; congruence).
      destruct (String.eqb_spec n name) as [->|Hne].
      * rewrite (stat_of_lengths h1).
        -- rewrite Eh1. apply do_call_stat_any. reflexivity.
        -- apply writeFields_lengths_out. left. exact Hn.
      * rewrite IH; [|exact Hnd| |exact Hs].
        -- apply do_call_stat_any. rewrite Eh1.
           apply do_call_stat_other. exact Hne.
        -- destruct Hin as [E|Hin]; [congruence | exact Hin].
Qed.

Lemma WriteTo_lengths (h : @Handler W) :
  lengths (fst (WriteTo h)) = lengths h.
Proof.
  unfold WriteTo. destruct (0 <? _); [|reflexivity].
  destruct (Go.Write _ _) as [[w m] err].
  destruct (_ <? m); [reflexivity|].
  destruct err; [reflexivity|].
  destruct (negb _); reflexivity.
Qed.

(** The fields are written on a handler that has the statistics of the
    one [HandleLog] was given, and what they leave is what it returns. *)
Lemma HandleLog_lengths h e :
  exists h1 : @Handler W,
    lengths h1 = lengths h
    /\ lengths (fst (HandleLog h e))
       = lengths
           (fst (writeFields h1 e 0 (sortNames e (Names (Fields e)))
                   (sortNames e (Names (Fields e))))).
Proof.
  rewrite HandleLog_WriteTo, WriteTo_lengths.
  unfold fillBuffer. cbv zeta.
  destruct (String.eqb (Message e) ""); simpl;
    match goal with
    | |- context [writeFields ?h1 _ _ ?r ?n] =>
        exists h1; split; [reflexivity|];
        destruct (writeFields_eq h1 e 0 r n) as (ws & lens & -> & _)
    end; reflexivity.
Qed.

(** X17: a record leaves the statistics of the names it does not carry as
    they were, and it never records anything for the name "source", which
    it skips. *)
Theorem HandleLog_leaves_other_names h e (name : string) :
  Fields e !! name = None \/ name = "source" ->
  lengths (fst (HandleLog h e)) !! name = lengths h !! name.
Proof.
  intros Hout. destruct (HandleLog_lengths h e) as (h1 & E1 & ->).
  rewrite writeFields_lengths_out; [rewrite E1; reflexivity|].
  destruct Hout as [Hnone|Hs]; [left|right; exact Hs].
  intros Hin. apply list_elem_of_In in Hin.
  rewrite sortNames_perm, Names_keys, Hnone in Hin.
  destruct Hin as [v Hv]. discriminate Hv.
Qed.

(** X18: a record counts once for each of its fields other than "source":
    the statistics of such a name after [HandleLog] are those that one
    call of [writeNameValue] for it leaves, so its count of samples has
    gone up by one, whatever other fields the record has and wherever
    the name stands among them. *)
Theorem HandleLog_counts_each_field_once h e (name : string) :
  is_Some (Fields e !! name) -> name <> "source" ->
  stat (fst (HandleLog h e)) name
  = stat (fst (writeNameValue h e name 0 [])) name
  /\ Count (stat (fst (HandleLog h e)) name)
     = Go.int_add (Count (stat h name)) 1.
Proof.
  intros Hin Hs.
  assert (E :
    stat (fst (HandleLog h e)) name
    = stat (do_call h (mkCall e name 0 [])) name).
  { destruct (HandleLog_lengths h e) as (h1 & E1 & E2).
    unfold stat at 1. rewrite E2.
    change (default {| MaxLength := 0; Count := 0; RightAlignable := 0 |}
              (lengths
                 (fst (writeFields h1 e 0 (sortNames e (Names (Fields e)))
                         (sortNames e (Names (Fields e)))))
               !! name))
      with (stat (fst (writeFields h1 e 0 (sortNames e (Names (Fields e)))
                         (sortNames e (Names (Fields e))))) name).
    rewrite writeFields_stat_in.
    - apply do_call_stat_any. unfold stat. rewrite E1. reflexivity.
    - apply NoDup_ListNoDup. rewrite sortNames_perm. apply Names_NoDup.
    - apply list_elem_of_In. rewrite sortNames_perm, Names_keys. exact Hin.
    - exact Hs. }
  split; [exact E|].
  rewrite E. change name with (call_name (mkCall e name 0 [])) at 1.
  rewrite do_call_stat. reflexivity.
Qed.

End LineMore.

Lemma HandleLog_leaves_other_names_witness :
  lengths
    (fst (HandleLog (ext := Sample.plain) (sink := Sample.keeping)
            (New []) Sample.starting))
  !! "source"
  = None.
Proof.
  rewrite (HandleLog_leaves_other_names (ext := Sample.plain)
             (sink := Sample.keeping) (New []) Sample.starting "source").
  - reflexivity.
  - right. reflexivity.
Defined.

Lemma HandleLog_counts_each_field_once_witness :
  Count
    (stat
       (fst (HandleLog (ext := Sample.plain) (sink := Sample.keeping)
               (New []) Sample.starting))
       "count")
  = 1.
Proof.
  destruct
    (HandleLog_counts_each_field_once (ext := Sample.plain)
       (sink := Sample.keeping) (New []) Sample.starting "count")
    as [_ H].
  - exists (VInt 42). vm_compute. reflexivity.
  - intros E. discriminate E.
  - rewrite H. vm_compute. reflexivity.
Defined.

(** ** The two earlier revisions *)

Section EarlierRevisions.
Context {ext : Externals} {W : Type} {sink : Go.Writer W}.
Implicit Types (h : @Palette.Handler W) (e : Entry).

Lemma Palette_length_of_set h (name : string) (l : Z) :
  Palette.length_of (Palette.set_length h name l) name = l.
Proof.
  unfold Palette.length_of, Palette.set_length. simpl.
  rewrite lookup_insert_eq. reflexivity.
Qed.

Lemma Palette_length_of_Fprintf h (fw : fwrite) (name : string) :
  Palette.length_of (Palette.Fprintf h fw) name = Palette.length_of h name.
Proof. reflexivity. Qed.

(** X19: in the palette revision a field is aligned by the classifier's
    verdict on the value at hand alone, with no memory of earlier values,
    and a duration is measured and printed as it is.  The stored width
    follows the same rule as later, the maximum and then the decay, and
    is never below the width of the value. *)
Theorem Palette_aligns_by_the_current_value h e (name : string) (i : Z)
  (names : list string) :
  Palette.length_of (Palette.writeField h e name i names) name
  = (if Go.int_add (StringWidth (Sprint_v (Get (Fields e) name))) 20
        <? max (Palette.length_of h name)
             (StringWidth (Sprint_v (Get (Fields e) name)))
     then StringWidth (Sprint_v (Get (Fields e) name))
     else max (Palette.length_of h name)
            (StringWidth (Sprint_v (Get (Fields e) name))))
  /\ StringWidth (Sprint_v (Get (Fields e) name))
     <= Palette.length_of (Palette.writeField h e name i names) name
  /\ exists fw,
       written (Palette.buf (Palette.writeField h e name i names))
       = (written (Palette.buf h) ++ [fw])%list
       /\ field_name fw = Some name
       /\ rendered_alignment fw
          = Some (if isTypeRightAlignable (Get (Fields e) name)
                  then RIGHT else LEFT)
       /\ fw
          = if isTypeRightAlignable (Get (Fields e) name)
            then FRight (Palette.getKeyColor name) name
                   (Palette.length_of (Palette.writeField h e name i names) name)
                   (Get (Fields e) name)
            else FLeft (Palette.getKeyColor name) name (Get (Fields e) name)
                   (if (StringWidth (Sprint_v (Get (Fields e) name))
                        <? Palette.length_of (Palette.writeField h e name i names) name)
                       && negb (Go.int_add i 1 =? Z.of_nat (length names))
                    then Go.Repeat " "
                           (Go.int_sub
                              (Palette.length_of (Palette.writeField h e name i names) name)
                              (StringWidth (Sprint_v (Get (Fields e) name))))
                    else "").
Proof.
  unfold Palette.writeField.
  rewrite !Palette_length_of_set.
  pose proof (max_ge_r (Palette.length_of h name)
                (StringWidth (Sprint_v (Get (Fields e) name)))) as Hmax.
  destruct (Go.int_add _ 20 <? _);
    destruct (isTypeRightAlignable (Get (Fields e) name));
    rewrite ?Palette_length_of_Fprintf, ?Palette_length_of_set;
    (split; [reflexivity|]); (split; [lia|]);
    eexists; (split; [reflexivity|]); repeat split.
Qed.

(** X20: the revision in between aligns in the same way: by the verdict
    on the value at hand, with the width rule of the maximum and the
    decay, and with its own key colors. *)
Theorem Interim_aligns_by_the_current_value h e (name : string) (i : Z)
  (names : list string) :
  Palette.length_of (Interim.writeNameValue h e name i names) name
  = (if Go.int_add (StringWidth (Sprint_v (Get (Fields e) name))) 20
        <? max (Palette.length_of h name)
             (StringWidth (Sprint_v (Get (Fields e) name)))
     then StringWidth (Sprint_v (Get (Fields e) name))
     else max (Palette.length_of h name)
            (StringWidth (Sprint_v (Get (Fields e) name))))
  /\ StringWidth (Sprint_v (Get (Fields e) name))
     <= Palette.length_of (Interim.writeNameValue h e name i names) name
  /\ exists fw,
       written (Palette.buf (Interim.writeNameValue h e name i names))
       = (written (Palette.buf h) ++ [fw])%list
       /\ field_name fw = Some name
       /\ rendered_alignment fw
          = Some (if isTypeRightAlignable (Get (Fields e) name)
                  then RIGHT else LEFT)
       /\ fw
          = if isTypeRightAlignable (Get (Fields e) name)
            then FRight (Interim.getKeyColor name) name
                   (Palette.length_of (Interim.writeNameValue h e name i names) name)
                   (Get (Fields e) name)
            else FLeft (Interim.getKeyColor name) name (Get (Fields e) name)
                   (if (StringWidth (Sprint_v (Get (Fields e) name))
                        <? Palette.length_of (Interim.writeNameValue h e name i names) name)
                       && negb (Go.int_add i 1 =? Z.of_nat (length names))
                    then Go.Repeat " "
                           (Go.int_sub
                              (Palette.length_of (Interim.writeNameValue h e name i names) name)
                              (StringWidth (Sprint_v (Get (Fields e) name))))
                    else "").
Proof.
  unfold Interim.writeNameValue.
  rewrite !Palette_length_of_set.
  pose proof (max_ge_r (Palette.length_of h name)
                (StringWidth (Sprint_v (Get (Fields e) name)))) as Hmax.
  destruct (Go.int_add _ 20 <? _);
    destruct (isTypeRightAlignable (Get (Fields e) name));
    rewrite ?Palette_length_of_Fprintf, ?Palette_length_of_set;
    (split; [reflexivity|]); (split; [lia|]);
    eexists; (split; [reflexivity|]); repeat split.
Qed.

End EarlierRevisions.

Section PaletteLine.
Context {ext : Externals} {W : Type} {sink : Go.Writer W}.
Implicit Types (h : @Palette.Handler W) (e : Entry).

Lemma Palette_writeField_eq h e (name : string) (i : Z)
  (names : list string) :
  exists fw lens,
    Palette.writeField h e name i names
    = {| Palette.Writer := Palette.Writer h;
         Palette.Timestamp := Palette.Timestamp h;
         Palette.lengths := lens;
         Palette.buf :=
           mkBuffer (written (Palette.buf h) ++ [fw])
             (off (Palette.buf h)) |}
    /\ field_name fw = Some name.
Proof.
  unfold Palette.writeField.
  destruct (Go.int_add _ 20 <? _);
    destruct (isTypeRightAlignable (Get (Fields e) name));
    eexists _, _; split; reflexivity.
Qed.

Lemma Palette_writeFields_eq h e (i : Z) (rest names : list string) :
  exists ws lens,
    Palette.writeFields h e i rest names
    = {| Palette.Writer := Palette.Writer h;
         Palette.Timestamp := Palette.Timestamp h;
         Palette.lengths := lens;
         Palette.buf :=
           mkBuffer (written (Palette.buf h) ++ ws) (off (Palette.buf h)) |}
    /\ map field_name ws = map Some (List.filter not_source rest).
Proof.
  revert h i. induction rest as [|name rest IH]; intros h i.
  - exists [], (Palette.lengths h). simpl. rewrite app_nil_r.
    destruct h as [w t l [ws o]]. split; reflexivity.
  - simpl. unfold not_source at 1.
    destruct (String.eqb name "source") eqn:Hs; simpl.
    + apply IH.
    + destruct (Palette_writeField_eq h e name i names)
        as (fw & lens1 & -> & Hfw).
      match goal with
      | |- context [Palette.writeFields ?h1 _ _ _ _] =>
          destruct (IH h1 (i + 1)) as (ws & lens & -> & Hws)
      end.
      simpl. exists (fw :: ws), lens. rewrite <- app_assoc. simpl.
      split; [reflexivity|]. rewrite Hfw, Hws. reflexivity.
Qed.

(** The palette revision's line, appended to what the buffer holds. *)
Lemma Palette_fillBuffer_eq h e :
  exists ws lens,
    Palette.fillBuffer h e
    = {| Palette.Writer := Palette.Writer h;
         Palette.Timestamp := Palette.Timestamp h;
         Palette.lengths := lens;
         Palette.buf :=
           mkBuffer
             (written (Palette.buf h)
              ++ FHeader (Palette.LevelColors (Level_ e))
                   (Time_Format (Timestamp_ e) (Palette.Timestamp h))
                   (LevelSymbol (Level_ e))
                 :: FMessagePadded
                      (Go.int_sub 0
                         (max (Palette.length_of h "msg")
                            (StringWidth (Message e))))
                      (Message e)
                 :: ws ++ [FNewline])
             (off (Palette.buf h)) |}
    /\ map field_name ws
       = map Some
           (List.filter not_source (sortNames e (Names (Fields e)))).
Proof.
  unfold Palette.fillBuffer. cbv zeta.
  rewrite Palette_length_of_Fprintf, Palette_length_of_set.
  match goal with
  | |- context [Palette.writeFields ?h1 _ _ ?r ?n] =>
      destruct (Palette_writeFields_eq h1 e 0 r n) as (ws & lens & -> & Hws)
  end.
  exists ws, lens. split; [|exact Hws].
  unfold Palette.Fprintf. simpl.
  rewrite <- !app_assoc. reflexivity.
Qed.

(** X21: in the palette revision the buffer is not cleared first: the
    line is appended to what the buffer holds.  It is the header, then
    the message, always, even when empty, padded on its right to the
    larger of its own width and the width kept under the name "msg", then
    one write for every sorted name other than "source", then one
    newline. *)
Theorem Palette_line_shape h e :
  exists ws lens,
    Palette.fillBuffer h e
    = {| Palette.Writer := Palette.Writer h;
         Palette.Timestamp := Palette.Timestamp h;
         Palette.lengths := lens;
         Palette.buf :=
           mkBuffer
             (written (Palette.buf h)
              ++ FHeader (Palette.LevelColors (Level_ e))
                   (Time_Format (Timestamp_ e) (Palette.Timestamp h))
                   (LevelSymbol (Level_ e))
                 :: FMessagePadded
                      (Go.int_sub 0
                         (max (Palette.length_of h "msg")
                            (StringWidth (Message e))))
                      (Message e)
                 :: ws ++ [FNewline])
             (off (Palette.buf h)) |}
    /\ map field_name ws
       = map Some
           (List.filter (fun name => negb (String.eqb name "source"))
              (sortNames e (Names (Fields e)))).
Proof.
  destruct (Palette_fillBuffer_eq h e) as (ws & lens & E & Hws).
  exists ws, lens. split; [exact E | exact Hws].
Qed.

(** X22: on a handler whose buffer is empty, as a new one's is and as
    every return of [HandleLog] leaves it, the palette revision hands the
    line to the sink in one write and then, whatever the sink answers
    within the bytes it was given, clears the buffer and returns nil: a
    line that the sink refused, or took only in part, is gone. *)
Theorem Palette_HandleLog_forgets_the_line h e (w' : W) (n : Z)
  (werr : Go.error) :
  Palette.buf h = mkBuffer [] 0 ->
  Go.Write (Palette.Writer h)
    (Go.concat_bytes
       (map render (written (Palette.buf (Palette.fillBuffer h e)))))
  = (w', n, werr) ->
  n <= Go.len
         (Go.concat_bytes
            (map render (written (Palette.buf (Palette.fillBuffer h e))))) ->
  Palette.HandleLog h e
  = ({| Palette.Writer := w';
        Palette.Timestamp := Palette.Timestamp h;
        Palette.lengths := Palette.lengths (Palette.fillBuffer h e);
        Palette.buf := mkBuffer [] 0 |}, Go.Return None).
Proof.
  intros Hb. unfold Palette.HandleLog.
  destruct (Palette_fillBuffer_eq h e) as (ws & lens & -> & _).
  rewrite Hb. cbn [written off Palette.buf app]. intros HW Hn.
  unfold Palette.WriteTo, Palette.Bytes.
  cbn [written off Palette.buf Palette.Writer Palette.Timestamp
       Palette.lengths].
  change (Go.drop_bytes 0 ?s) with s.
  assert (Hpos :
    0 < Go.len
          (Go.concat_bytes
             (map render
                (FHeader (Palette.LevelColors (Level_ e))
                   (Time_Format (Timestamp_ e) (Palette.Timestamp h))
                   (LevelSymbol (Level_ e))
                 :: FMessagePadded
                      (Go.int_sub 0
                         (max (Palette.length_of h "msg")
                            (StringWidth (Message e))))
                      (Message e)
                 :: ws ++ [FNewline])))).
  { rewrite !app_comm_cons, map_app.
    change (map render [FNewline]) with [render FNewline].
    rewrite concat_bytes_snoc_length. unfold Go.len. simpl. lia. }
  replace (0 <? _) with true by (symmetry; apply Z.ltb_lt; exact Hpos).
  rewrite HW.
  replace (_ <? n) with false by (symmetry; apply Z.ltb_ge; exact Hn).
  destruct werr as [msg|]; [reflexivity|].
  destruct (negb _); reflexivity.
Qed.

End PaletteLine.

(** A closed sink under the palette revision: the sink has seen the line,
    the handler keeps none of it and reports nothing. *)
Lemma Palette_HandleLog_forgets_the_line_witness :
  Palette.buf
    (fst (Palette.HandleLog (ext := Sample.plain) (sink := Sample.closed)
            (Palette.New []) Sample.starting))
  = mkBuffer [] 0
  /\ snd (Palette.HandleLog (ext := Sample.plain) (sink := Sample.closed)
            (Palette.New []) Sample.starting)
     = Go.Return None.
Proof.
  rewrite (Palette_HandleLog_forgets_the_line (ext := Sample.plain)
             (sink := Sample.closed) (Palette.New []) Sample.starting
             [" I starting count=42 name=worker-1" +:+ newline] 0
             (Some "write on closed pipe")).
  - split; reflexivity.
  - reflexivity.
  - vm_compute. reflexivity.
  - vm_compute. intros E. discriminate E.
Defined.

(** ** Durations as field values *)

Lemma nanoseconds_look_numeric (d : Z) :
  0 <= d < 1000 -> Go.MatchString reNumType (Go.itoa d +:+ "ns") = true.
Proof.
  intros Hd.
  assert (Hall :
    forallb
      (fun n => Go.MatchString reNumType (Go.itoa (Z.of_nat n) +:+ "ns"))
      (seq 0 1000) = true) by (vm_compute; reflexivity).
  rewrite List.forallb_forall in Hall.
  assert (Hin : In (Z.to_nat d) (seq 0 1000)) by (apply in_seq; lia).
  specialize (Hall _ Hin). rewrite Z2Nat.id in Hall by lia. exact Hall.
Qed.

(** X23: the names are sorted with a duration taken for RIGHT, by its
    type; its vote and its padding side come from its compact rendering.
    Below a microsecond that rendering, the count and "ns", votes RIGHT
    exactly when the duration is not negative: the minus sign of a
    negative one makes it vote LEFT. *)
Theorem short_durations_vote_by_sign {ext : Externals} (d : Z) :
  d < time.Microsecond ->
  isTypeRightAlignable (VDuration d) = true
  /\ shown (VDuration d) = VString (Go.itoa d +:+ "ns")
  /\ isTypeRightAlignable (shown (VDuration d)) = (0 <=? d).
Proof.
  intros Hd.
  assert (Hs : shown (VDuration d) = VString (Go.itoa d +:+ "ns")).
  { unfold shown, Duration.
    replace (d <? time.Microsecond) with true
      by (symmetry; apply Z.ltb_lt; exact Hd).
    reflexivity. }
  split; [reflexivity|]. split; [exact Hs|]. rewrite Hs. simpl.
  destruct (Z.leb_spec 0 d) as [H0|H0].
  - apply nanoseconds_look_numeric.
    change time.Microsecond with 1000 in Hd. lia.
  - destruct (Go.MatchString reNumType (Go.itoa d +:+ "ns")) eqn:E;
      [|reflexivity].
    apply PatternFacts.reNumType_NumericLooking in E.
    apply NumericLooking_head in E as (c & s' & E & Hc).
    destruct d as [|p|p]; try lia.
    unfold Go.itoa in E. simpl in E. rewrite append_cons in E.
    injection E as <- _. discriminate Hc.
Qed.

Lemma short_durations_vote_by_sign_witness :
  isTypeRightAlignable (VDuration 500) = true
  /\ shown (ext := Sample.plain) (VDuration 500) = VString "500ns"
  /\ isTypeRightAlignable (shown (ext := Sample.plain) (VDuration 500))
     = true.
Proof.
  apply (short_durations_vote_by_sign (ext := Sample.plain) 500).
  vm_compute. reflexivity.
Defined.
